(** * Arcade flight model: one simulation tick

    A shallow embedding of [ArcadeFlightModel.step] and [getStallStatus]
    (src/script/physics/model/arcadeFlightModel.ts) and of the properties
    the specification states about them.

    Numbers.  A JavaScript number is modelled as a real number: arithmetic
    is exact, and [Math.sqrt], [Math.exp], [Math.sin], [Math.cos],
    [Math.acos] are the functions of the same name on [R].  There is no
    NaN and no infinity in this model.

    Objects.  Every [THREE.Vector3], [THREE.Quaternion] and
    [THREE.Matrix4] the method mutates is a field of the model record;
    a chain of mutating calls on a receiver becomes a chain of pure
    functions whose result is stored back into that field. *)

From Stdlib Require Import Reals Lra Psatz Bool.

Open Scope R_scope.

Set Primitive Projections.

(** ** JavaScript comparisons and [Math] *)

Module JS.

Definition lt (a b : R) : bool := if Rlt_dec a b then true else false.
Definition gt (a b : R) : bool := lt b a.
Definition ge (a b : R) : bool := if Rle_dec b a then true else false.
Definition le (a b : R) : bool := ge b a.
Definition eq (a b : R) : bool := if Req_dec_T a b then true else false.

(** [a || b] on numbers: [b] when [a] is [0]. *)
Definition or_else (a b : R) : R := if Req_dec_T a 0 then b else a.

(** [Math.pow] on the part of its domain that has a real value: a
    positive base, or base [0] with a positive exponent.  Elsewhere
    JavaScript gives [1] (exponent [0]), an infinity or NaN; the model
    gives [1] there. *)
Definition pow (b e : R) : R :=
  if Rlt_dec 0 b then Rpower b e
  else if Req_dec_T b 0 then (if Rlt_dec 0 e then 0 else 1)
  else 1.

(** [Math.atan2 y x] for [y > 0], the only case used here. *)
Definition atan2_pos (y x : R) : R :=
  if Rlt_dec 0 x then atan (y / x)
  else if Rlt_dec x 0 then atan (y / x) + PI
  else PI / 2.

(** [Number.EPSILON], 2^-52. *)
Definition EPSILON : R := / 4503599627370496.

End JS.

Declare Scope js_scope.
Delimit Scope js_scope with js.
Infix "<?" := JS.lt (at level 70, no associativity) : js_scope.
Infix ">?" := JS.gt (at level 70, no associativity) : js_scope.
Infix ">=?" := JS.ge (at level 70, no associativity) : js_scope.
Infix "<=?" := JS.le (at level 70, no associativity) : js_scope.
Infix "=?" := JS.eq (at level 70, no associativity) : js_scope.
Open Scope js_scope.

(** ** three.js: [Vector3], [Quaternion], [Matrix4], [Object3D]

    The operations of the three.js library that [step] calls, each as the
    function from the receiver (first argument) and the arguments to the
    receiver's new value. *)

Module Quaternion.

Record t : Type := mk { x : R; y : R; z : R; w : R }.

Definition identity : t := mk 0 0 0 1.

Definition dot (a b : t) : R :=
  x a * x b + y a * y b + z a * z b + w a * w b.

Definition length (q : t) : R := sqrt (dot q q).

Definition normalize (q : t) : t :=
  let l := length q in
  if l =? 0 then identity
  else mk (x q * (1 / l)) (y q * (1 / l)) (z q * (1 / l)) (w q * (1 / l)).

(** [multiplyQuaternions a b]. *)
Definition multiplyQuaternions (a b : t) : t :=
  mk (x a * w b + w a * x b + y a * z b - z a * y b)
     (y a * w b + w a * y b + z a * x b - x a * z b)
     (z a * w b + w a * z b + x a * y b - y a * x b)
     (w a * w b - x a * x b - y a * y b - z a * z b).

Definition multiply (this q : t) : t := multiplyQuaternions this q.
Definition premultiply (this q : t) : t := multiplyQuaternions q this.

(** [angleTo]: [2 * acos |clamp (dot) (-1) 1|]. *)
Definition angleTo (this q : t) : R :=
  2 * acos (Rabs (Rmax (-1) (Rmin 1 (dot this q)))).

Definition slerp (this qb : t) (k : R) : t :=
  if k =? 0 then this
  else if k =? 1 then qb
  else
    let cosHalfTheta := dot this qb in
    let flip := cosHalfTheta <? 0 in
    let target := if flip then mk (- x qb) (- y qb) (- z qb) (- w qb) else qb in
    let cosHalfTheta := if flip then - cosHalfTheta else cosHalfTheta in
    if cosHalfTheta >=? 1 then this
    else
      let sqrSinHalfTheta := 1 - cosHalfTheta * cosHalfTheta in
      if sqrSinHalfTheta <=? JS.EPSILON then
        let s := 1 - k in
        normalize (mk (s * x this + k * x target) (s * y this + k * y target)
                      (s * z this + k * z target) (s * w this + k * w target))
      else
        let sinHalfTheta := sqrt sqrSinHalfTheta in
        let halfTheta := JS.atan2_pos sinHalfTheta cosHalfTheta in
        let ratioA := sin ((1 - k) * halfTheta) / sinHalfTheta in
        let ratioB := sin (k * halfTheta) / sinHalfTheta in
        mk (x this * ratioA + x target * ratioB)
           (y this * ratioA + y target * ratioB)
           (z this * ratioA + z target * ratioB)
           (w this * ratioA + w target * ratioB).

Definition rotateTowards (this q : t) (step : R) : t :=
  let angle := angleTo this q in
  if angle =? 0 then this
  else slerp this q (Rmin 1 (step / angle)).

End Quaternion.

Module Vector3.

Record t : Type := mk { x : R; y : R; z : R }.

Definition set (_ : t) (a b c : R) : t := mk a b c.
Definition copy (_ v : t) : t := v.
Definition setY (v : t) (b : R) : t := mk (x v) b (z v).

Definition add (v u : t) : t := mk (x v + x u) (y v + y u) (z v + z u).
Definition sub (v u : t) : t := mk (x v - x u) (y v - y u) (z v - z u).
Definition multiplyScalar (v : t) (s : R) : t := mk (x v * s) (y v * s) (z v * s).
Definition divideScalar (v : t) (s : R) : t := multiplyScalar v (1 / s).
Definition addScaledVector (v u : t) (s : R) : t :=
  mk (x v + x u * s) (y v + y u * s) (z v + z u * s).
Definition negate (v : t) : t := mk (- x v) (- y v) (- z v).

Definition dot (v u : t) : R := x v * x u + y v * y u + z v * z u.
Definition lengthSq (v : t) : R := x v * x v + y v * y v + z v * z v.
Definition length (v : t) : R := sqrt (lengthSq v).

(** [normalize]: [divideScalar (length () || 1)]. *)
Definition normalize (v : t) : t := divideScalar v (JS.or_else (length v) 1).

Definition cross (a b : t) : t :=
  mk (y a * z b - z a * y b) (z a * x b - x a * z b) (x a * y b - y a * x b).

Definition projectOnVector (this v : t) : t :=
  let denominator := lengthSq v in
  if denominator =? 0 then mk 0 0 0
  else multiplyScalar v (dot v this / denominator).

Definition projectOnPlane (this planeNormal : t) : t :=
  sub this (projectOnVector this planeNormal).

Definition angleTo (this v : t) : R :=
  let denominator := sqrt (lengthSq this * lengthSq v) in
  if denominator =? 0 then PI / 2
  else acos (Rmax (-1) (Rmin 1 (dot this v / denominator))).

(** [applyQuaternion]: the vector part of [q * v * conj q]. *)
Definition applyQuaternion (v : t) (q : Quaternion.t) : t :=
  let qx := Quaternion.x q in let qy := Quaternion.y q in
  let qz := Quaternion.z q in let qw := Quaternion.w q in
  let ix := qw * x v + qy * z v - qz * y v in
  let iy := qw * y v + qz * x v - qx * z v in
  let iz := qw * z v + qx * y v - qy * x v in
  let iw := - qx * x v - qy * y v - qz * z v in
  mk (ix * qw + iw * - qx + iy * - qz - iz * - qy)
     (iy * qw + iw * - qy + iz * - qx - ix * - qz)
     (iz * qw + iw * - qz + ix * - qy - iy * - qx).

End Vector3.

Definition setFromAxisAngle (_ : Quaternion.t) (axis : Vector3.t) (angle : R)
  : Quaternion.t :=
  let halfAngle := angle / 2 in
  let s := sin halfAngle in
  Quaternion.mk (Vector3.x axis * s) (Vector3.y axis * s) (Vector3.z axis * s)
                (cos halfAngle).

Module Object3D.

(** The two properties of [this.obj] that [step] reads and writes. *)
Record t : Type := mk { quaternion : Quaternion.t; position : Vector3.t }.

Definition set_quaternion (o : t) (q : Quaternion.t) : t := mk q (position o).
Definition set_position (o : t) (p : Vector3.t) : t := mk (quaternion o) p.

(** [rotateOnAxis]: the axis is in object space;
    [quaternion.multiply (setFromAxisAngle axis angle)]. *)
Definition rotateOnAxis (o : t) (axis : Vector3.t) (angle : R) : t :=
  set_quaternion o
    (Quaternion.multiply (quaternion o)
       (setFromAxisAngle Quaternion.identity axis angle)).

(** [rotateOnWorldAxis]: [quaternion.premultiply (setFromAxisAngle axis angle)]. *)
Definition rotateOnWorldAxis (o : t) (axis : Vector3.t) (angle : R) : t :=
  set_quaternion o
    (Quaternion.premultiply (quaternion o)
       (setFromAxisAngle Quaternion.identity axis angle)).

Definition rotateX (o : t) (angle : R) : t := rotateOnAxis o (Vector3.mk 1 0 0) angle.
Definition rotateY (o : t) (angle : R) : t := rotateOnAxis o (Vector3.mk 0 1 0) angle.
Definition rotateZ (o : t) (angle : R) : t := rotateOnAxis o (Vector3.mk 0 0 1) angle.

End Object3D.

Module Matrix4.

(** The sixteen elements, named as the arguments of [Matrix4.set]:
    [nRC] is row R, column C. *)
Record t : Type := mk {
  n11 : R; n12 : R; n13 : R; n14 : R;
  n21 : R; n22 : R; n23 : R; n24 : R;
  n31 : R; n32 : R; n33 : R; n34 : R;
  n41 : R; n42 : R; n43 : R; n44 : R }.

Definition identity : t := mk 1 0 0 0  0 1 0 0  0 0 1 0  0 0 0 1.
Definition zero : t := mk 0 0 0 0  0 0 0 0  0 0 0 0  0 0 0 0.

(** [lookAt] writes the rotation block only: columns [x], [y], [z]. *)
Definition lookAt (this : t) (eye target up : Vector3.t) : t :=
  let z := Vector3.sub eye target in
  let z := if Vector3.lengthSq z =? 0 then Vector3.mk (Vector3.x z) (Vector3.y z) 1 else z in
  let z := Vector3.normalize z in
  let x := Vector3.cross up z in
  let parallel := Vector3.lengthSq x =? 0 in
  let z :=
    if parallel then
      Vector3.normalize
        (if Rabs (Vector3.z up) =? 1
         then Vector3.mk (Vector3.x z + 0.0001) (Vector3.y z) (Vector3.z z)
         else Vector3.mk (Vector3.x z) (Vector3.y z) (Vector3.z z + 0.0001))
    else z in
  let x := if parallel then Vector3.cross up z else x in
  let x := Vector3.normalize x in
  let y := Vector3.cross z x in
  mk (Vector3.x x) (Vector3.x y) (Vector3.x z) (n14 this)
     (Vector3.y x) (Vector3.y y) (Vector3.y z) (n24 this)
     (Vector3.z x) (Vector3.z y) (Vector3.z z) (n34 this)
     (n41 this) (n42 this) (n43 this) (n44 this).

Definition t11 (m : t) : R :=
  n23 m * n34 m * n42 m - n24 m * n33 m * n42 m + n24 m * n32 m * n43 m
  - n22 m * n34 m * n43 m - n23 m * n32 m * n44 m + n22 m * n33 m * n44 m.
Definition t12 (m : t) : R :=
  n14 m * n33 m * n42 m - n13 m * n34 m * n42 m - n14 m * n32 m * n43 m
  + n12 m * n34 m * n43 m + n13 m * n32 m * n44 m - n12 m * n33 m * n44 m.
Definition t13 (m : t) : R :=
  n13 m * n24 m * n42 m - n14 m * n23 m * n42 m + n14 m * n22 m * n43 m
  - n12 m * n24 m * n43 m - n13 m * n22 m * n44 m + n12 m * n23 m * n44 m.
Definition t14 (m : t) : R :=
  n14 m * n23 m * n32 m - n13 m * n24 m * n32 m - n14 m * n22 m * n33 m
  + n12 m * n24 m * n33 m + n13 m * n22 m * n34 m - n12 m * n23 m * n34 m.

Definition determinant (m : t) : R :=
  n11 m * t11 m + n21 m * t12 m + n31 m * t13 m + n41 m * t14 m.

(** [invert]: the adjugate over the determinant; the zero matrix when
    the determinant is [0]. *)
Definition invert (m : t) : t :=
  let det := determinant m in
  if det =? 0 then zero
  else
    let detInv := 1 / det in
    mk (t11 m * detInv) (t12 m * detInv) (t13 m * detInv) (t14 m * detInv)
       ((n24 m * n33 m * n41 m - n23 m * n34 m * n41 m - n24 m * n31 m * n43 m
         + n21 m * n34 m * n43 m + n23 m * n31 m * n44 m - n21 m * n33 m * n44 m) * detInv)
       ((n13 m * n34 m * n41 m - n14 m * n33 m * n41 m + n14 m * n31 m * n43 m
         - n11 m * n34 m * n43 m - n13 m * n31 m * n44 m + n11 m * n33 m * n44 m) * detInv)
       ((n14 m * n23 m * n41 m - n13 m * n24 m * n41 m - n14 m * n21 m * n43 m
         + n11 m * n24 m * n43 m + n13 m * n21 m * n44 m - n11 m * n23 m * n44 m) * detInv)
       ((n13 m * n24 m * n31 m - n14 m * n23 m * n31 m + n14 m * n21 m * n33 m
         - n11 m * n24 m * n33 m - n13 m * n21 m * n34 m + n11 m * n23 m * n34 m) * detInv)
       ((n22 m * n34 m * n41 m - n24 m * n32 m * n41 m + n24 m * n31 m * n42 m
         - n21 m * n34 m * n42 m - n22 m * n31 m * n44 m + n21 m * n32 m * n44 m) * detInv)
       ((n14 m * n32 m * n41 m - n12 m * n34 m * n41 m - n14 m * n31 m * n42 m
         + n11 m * n34 m * n42 m + n12 m * n31 m * n44 m - n11 m * n32 m * n44 m) * detInv)
       ((n12 m * n24 m * n41 m - n14 m * n22 m * n41 m + n14 m * n21 m * n42 m
         - n11 m * n24 m * n42 m - n12 m * n21 m * n44 m + n11 m * n22 m * n44 m) * detInv)
       ((n14 m * n22 m * n31 m - n12 m * n24 m * n31 m - n14 m * n21 m * n32 m
         + n11 m * n24 m * n32 m + n12 m * n21 m * n34 m - n11 m * n22 m * n34 m) * detInv)
       ((n23 m * n32 m * n41 m - n22 m * n33 m * n41 m - n23 m * n31 m * n42 m
         + n21 m * n33 m * n42 m + n22 m * n31 m * n43 m - n21 m * n32 m * n43 m) * detInv)
       ((n12 m * n33 m * n41 m - n13 m * n32 m * n41 m + n13 m * n31 m * n42 m
         - n11 m * n33 m * n42 m - n12 m * n31 m * n43 m + n11 m * n32 m * n43 m) * detInv)
       ((n13 m * n22 m * n41 m - n12 m * n23 m * n41 m - n13 m * n21 m * n42 m
         + n11 m * n23 m * n42 m + n12 m * n21 m * n43 m - n11 m * n22 m * n43 m) * detInv)
       ((n12 m * n23 m * n31 m - n13 m * n22 m * n31 m + n13 m * n21 m * n32 m
         - n11 m * n23 m * n32 m - n12 m * n21 m * n33 m + n11 m * n22 m * n33 m) * detInv).

End Matrix4.

(** [Quaternion.setFromRotationMatrix]: reads the rotation block. *)
Definition setFromRotationMatrix (_ : Quaternion.t) (m : Matrix4.t) : Quaternion.t :=
  let m11 := Matrix4.n11 m in let m12 := Matrix4.n12 m in let m13 := Matrix4.n13 m in
  let m21 := Matrix4.n21 m in let m22 := Matrix4.n22 m in let m23 := Matrix4.n23 m in
  let m31 := Matrix4.n31 m in let m32 := Matrix4.n32 m in let m33 := Matrix4.n33 m in
  let trace := m11 + m22 + m33 in
  if trace >? 0 then
    let s := 0.5 / sqrt (trace + 1.0) in
    Quaternion.mk ((m32 - m23) * s) ((m13 - m31) * s) ((m21 - m12) * s) (0.25 / s)
  else if (m11 >? m22) && (m11 >? m33) then
    let s := 2.0 * sqrt (1.0 + m11 - m22 - m33) in
    Quaternion.mk (0.25 * s) ((m12 + m21) / s) ((m13 + m31) / s) ((m32 - m23) / s)
  else if m22 >? m33 then
    let s := 2.0 * sqrt (1.0 + m22 - m11 - m33) in
    Quaternion.mk ((m12 + m21) / s) (0.25 * s) ((m23 + m32) / s) ((m13 - m31) / s)
  else
    let s := 2.0 * sqrt (1.0 + m33 - m11 - m22) in
    Quaternion.mk ((m13 + m31) / s) ((m23 + m32) / s) (0.25 * s) ((m21 - m12) / s).

(** ** The model object

    The first seven fields are those of the base class [FlightModel]
    ([./flightModel], not part of the file) that [step] reads and writes,
    typed by their use; the others are the fields of the class body, in
    its order. *)

Record ArcadeFlightModel : Type := mkModel {
  obj : Object3D.t;
  velocity : Vector3.t;
  roll : R;
  pitch : R;
  yaw : R;
  throttle : R;
  landed : bool;
  stall : R;
  _v : Vector3.t;
  _q0 : Quaternion.t;
  _q1 : Quaternion.t;
  _m : Matrix4.t;
  drag : Vector3.t;
  thrust : Vector3.t;
  weight : Vector3.t;
  friction : Vector3.t;
  forces : Vector3.t;
  forward : Vector3.t;
  up : Vector3.t;
  right : Vector3.t;
  prjForward : Vector3.t;
  velocityUnit : Vector3.t }.

(** Assignment to one field: [this.f = e], or a mutating call on [this.f]
    whose result is [e]. *)

Definition set_obj (this : ArcadeFlightModel) (e : Object3D.t) : ArcadeFlightModel :=
  mkModel e (velocity this) (roll this) (pitch this) (yaw this) (throttle this)
    (landed this) (stall this) (_v this) (_q0 this) (_q1 this) (_m this) (drag this)
    (thrust this) (weight this) (friction this) (forces this) (forward this) (up this)
    (right this) (prjForward this) (velocityUnit this).

Definition set_velocity (this : ArcadeFlightModel) (e : Vector3.t) : ArcadeFlightModel :=
  mkModel (obj this) e (roll this) (pitch this) (yaw this) (throttle this) (landed this)
    (stall this) (_v this) (_q0 this) (_q1 this) (_m this) (drag this) (thrust this)
    (weight this) (friction this) (forces this) (forward this) (up this) (right this)
    (prjForward this) (velocityUnit this).

Definition set_landed (this : ArcadeFlightModel) (e : bool) : ArcadeFlightModel :=
  mkModel (obj this) (velocity this) (roll this) (pitch this) (yaw this) (throttle this)
    e (stall this) (_v this) (_q0 this) (_q1 this) (_m this) (drag this) (thrust this)
    (weight this) (friction this) (forces this) (forward this) (up this) (right this)
    (prjForward this) (velocityUnit this).

Definition set_stall (this : ArcadeFlightModel) (e : R) : ArcadeFlightModel :=
  mkModel (obj this) (velocity this) (roll this) (pitch this) (yaw this) (throttle this)
    (landed this) e (_v this) (_q0 this) (_q1 this) (_m this) (drag this) (thrust this)
    (weight this) (friction this) (forces this) (forward this) (up this) (right this)
    (prjForward this) (velocityUnit this).

Definition set__v (this : ArcadeFlightModel) (e : Vector3.t) : ArcadeFlightModel :=
  mkModel (obj this) (velocity this) (roll this) (pitch this) (yaw this) (throttle this)
    (landed this) (stall this) e (_q0 this) (_q1 this) (_m this) (drag this)
    (thrust this) (weight this) (friction this) (forces this) (forward this) (up this)
    (right this) (prjForward this) (velocityUnit this).

Definition set__q0 (this : ArcadeFlightModel) (e : Quaternion.t) : ArcadeFlightModel :=
  mkModel (obj this) (velocity this) (roll this) (pitch this) (yaw this) (throttle this)
    (landed this) (stall this) (_v this) e (_q1 this) (_m this) (drag this)
    (thrust this) (weight this) (friction this) (forces this) (forward this) (up this)
    (right this) (prjForward this) (velocityUnit this).

Definition set__q1 (this : ArcadeFlightModel) (e : Quaternion.t) : ArcadeFlightModel :=
  mkModel (obj this) (velocity this) (roll this) (pitch this) (yaw this) (throttle this)
    (landed this) (stall this) (_v this) (_q0 this) e (_m this) (drag this)
    (thrust this) (weight this) (friction this) (forces this) (forward this) (up this)
    (right this) (prjForward this) (velocityUnit this).

Definition set__m (this : ArcadeFlightModel) (e : Matrix4.t) : ArcadeFlightModel :=
  mkModel (obj this) (velocity this) (roll this) (pitch this) (yaw this) (throttle this)
    (landed this) (stall this) (_v this) (_q0 this) (_q1 this) e (drag this)
    (thrust this) (weight this) (friction this) (forces this) (forward this) (up this)
    (right this) (prjForward this) (velocityUnit this).

Definition set_drag (this : ArcadeFlightModel) (e : Vector3.t) : ArcadeFlightModel :=
  mkModel (obj this) (velocity this) (roll this) (pitch this) (yaw this) (throttle this)
    (landed this) (stall this) (_v this) (_q0 this) (_q1 this) (_m this) e (thrust this)
    (weight this) (friction this) (forces this) (forward this) (up this) (right this)
    (prjForward this) (velocityUnit this).

Definition set_thrust (this : ArcadeFlightModel) (e : Vector3.t) : ArcadeFlightModel :=
  mkModel (obj this) (velocity this) (roll this) (pitch this) (yaw this) (throttle this)
    (landed this) (stall this) (_v this) (_q0 this) (_q1 this) (_m this) (drag this) e
    (weight this) (friction this) (forces this) (forward this) (up this) (right this)
    (prjForward this) (velocityUnit this).

Definition set_weight (this : ArcadeFlightModel) (e : Vector3.t) : ArcadeFlightModel :=
  mkModel (obj this) (velocity this) (roll this) (pitch this) (yaw this) (throttle this)
    (landed this) (stall this) (_v this) (_q0 this) (_q1 this) (_m this) (drag this)
    (thrust this) e (friction this) (forces this) (forward this) (up this) (right this)
    (prjForward this) (velocityUnit this).

Definition set_friction (this : ArcadeFlightModel) (e : Vector3.t) : ArcadeFlightModel :=
  mkModel (obj this) (velocity this) (roll this) (pitch this) (yaw this) (throttle this)
    (landed this) (stall this) (_v this) (_q0 this) (_q1 this) (_m this) (drag this)
    (thrust this) (weight this) e (forces this) (forward this) (up this) (right this)
    (prjForward this) (velocityUnit this).

Definition set_forces (this : ArcadeFlightModel) (e : Vector3.t) : ArcadeFlightModel :=
  mkModel (obj this) (velocity this) (roll this) (pitch this) (yaw this) (throttle this)
    (landed this) (stall this) (_v this) (_q0 this) (_q1 this) (_m this) (drag this)
    (thrust this) (weight this) (friction this) e (forward this) (up this) (right this)
    (prjForward this) (velocityUnit this).

Definition set_forward (this : ArcadeFlightModel) (e : Vector3.t) : ArcadeFlightModel :=
  mkModel (obj this) (velocity this) (roll this) (pitch this) (yaw this) (throttle this)
    (landed this) (stall this) (_v this) (_q0 this) (_q1 this) (_m this) (drag this)
    (thrust this) (weight this) (friction this) (forces this) e (up this) (right this)
    (prjForward this) (velocityUnit this).

Definition set_up (this : ArcadeFlightModel) (e : Vector3.t) : ArcadeFlightModel :=
  mkModel (obj this) (velocity this) (roll this) (pitch this) (yaw this) (throttle this)
    (landed this) (stall this) (_v this) (_q0 this) (_q1 this) (_m this) (drag this)
    (thrust this) (weight this) (friction this) (forces this) (forward this) e
    (right this) (prjForward this) (velocityUnit this).

Definition set_right (this : ArcadeFlightModel) (e : Vector3.t) : ArcadeFlightModel :=
  mkModel (obj this) (velocity this) (roll this) (pitch this) (yaw this) (throttle this)
    (landed this) (stall this) (_v this) (_q0 this) (_q1 this) (_m this) (drag this)
    (thrust this) (weight this) (friction this) (forces this) (forward this) (up this) e
    (prjForward this) (velocityUnit this).

Definition set_prjForward (this : ArcadeFlightModel) (e : Vector3.t) : ArcadeFlightModel :=
  mkModel (obj this) (velocity this) (roll this) (pitch this) (yaw this) (throttle this)
    (landed this) (stall this) (_v this) (_q0 this) (_q1 this) (_m this) (drag this)
    (thrust this) (weight this) (friction this) (forces this) (forward this) (up this)
    (right this) e (velocityUnit this).

Definition set_velocityUnit (this : ArcadeFlightModel) (e : Vector3.t) : ArcadeFlightModel :=
  mkModel (obj this) (velocity this) (roll this) (pitch this) (yaw this) (throttle this)
    (landed this) (stall this) (_v this) (_q0 this) (_q1 this) (_m this) (drag this)
    (thrust this) (weight this) (friction this) (forces this) (forward this) (up this)
    (right this) (prjForward this) e.

(** ** What the file imports from the rest of the repository *)

(** The constants of [../../defs] and the body axes of [../../scene/scene],
    whose values are not in the file, and the default tolerances of the two
    tolerance-taking helpers of [../../utils/math]. *)
Class Defs : Type := {
  PITCH_RATE : R;
  ROLL_RATE : R;
  YAW_RATE : R;
  PLANE_DISTANCE_TO_GROUND : R;
  TERRAIN_SCALE : R;
  TERRAIN_MODEL_SIZE : R;
  FORWARD : Vector3.t;
  RIGHT : Vector3.t;
  isZero_epsilon : R;
  roundToZero_epsilon : R }.

(** The two [Object3D] methods whose result depends on the scene graph
    around [this.obj] (its ancestors, and whether it is a camera):
    [getWorldDirection target] gives the new value of [target], and
    [lookAt v] the new value of [this.obj.quaternion], the only property
    it writes. *)
Class World : Type := {
  getWorldDirection : Object3D.t -> Vector3.t -> Vector3.t;
  lookAt : Object3D.t -> Vector3.t -> Quaternion.t }.

(** Modelled from the spec: [UP] of [../../scene/scene].  The y coordinate
    is the altitude, the weight pulls along [- UP], and the automatic yaw
    turns about the world up axis. *)
Definition UP : Vector3.t := Vector3.mk 0 1 0.

(** Modelled from the spec: [ZERO] of [../../scene/scene], the origin. *)
Definition ZERO : Vector3.t := Vector3.mk 0 0 0.

(** Modelled from the spec: [clamp] of [../../utils/math]. *)
Definition clamp (x lo hi : R) : R := Rmax lo (Rmin hi x).

(** Modelled from the spec: [easeOutCirc] of [../../utils/math], the
    circular ease-out curve. *)
Definition easeOutCirc (x : R) : R := sqrt (1 - (x - 1) * (x - 1)).

(** Modelled from the spec: [isZero] of [../../utils/math], the near-zero
    test: the magnitude is below the tolerance. *)
Definition isZero `{Defs} (n : R) : bool := Rabs n <? isZero_epsilon.

(** Modelled from the spec: what [roundToZero] of [../../utils/math] does
    to one component: a magnitude below the tolerance becomes exactly [0]. *)
Definition snap (epsilon c : R) : R := if Rabs c <? epsilon then 0 else c.

(** Modelled from the spec: [roundToZero v epsilon] of [../../utils/math];
    the vector is changed in place and returned. *)
Definition roundToZero_with (v : Vector3.t) (epsilon : R) : Vector3.t :=
  Vector3.mk (snap epsilon (Vector3.x v)) (snap epsilon (Vector3.y v))
    (snap epsilon (Vector3.z v)).

(** Modelled from the spec: [roundToZero v], with the default tolerance. *)
Definition roundToZero `{Defs} (v : Vector3.t) : Vector3.t :=
  roundToZero_with v roundToZero_epsilon.

(** ** Constants of the file *)

Definition TURNING_RATE : R := PI * 1.5.
Definition STALL_RATE : R := PI / 6.
Definition INDUCED_DRAG_FACTOR : R := 10.0.
Definition ROLL_DRAG_FACTOR : R := 0.05.
Definition GROUND_FRICTION_KINETIC : R := 0.15.
Definition GROUND_FRICTION_STATIC : R := 0.3.

Definition MAX_THRUST : R := 20.
Definition DRY_MASS : R := 20000.
Definition WING_AREA : R := 78.
Definition GROUND_AIR_DENSITY : R := 1.225.
Definition GRAVITY : R := 9.8.
Definition CD : R := 0.15.

(** ** [step], statement by statement

    Each definition below is one commented block of the method body, in
    source order; [step] chains them.  The constants [airDensity], [speed]
    and [aoa] are computed once, before the controls, and passed on. *)

Section Step.

Context `{Defs} `{World}.

(** Lines 45-50: the body axes, the horizontal heading and the
    direction of flight, all from the tick-start state. *)
Definition basis (this : ArcadeFlightModel) : ArcadeFlightModel :=
  let this := set_forward this
    (Vector3.applyQuaternion (Vector3.copy (forward this) FORWARD)
       (Object3D.quaternion (obj this))) in
  let this := set_up this
    (Vector3.applyQuaternion (Vector3.copy (up this) UP)
       (Object3D.quaternion (obj this))) in
  let this := set_right this
    (Vector3.applyQuaternion (Vector3.copy (right this) RIGHT)
       (Object3D.quaternion (obj this))) in
  let this := set_prjForward this
    (Vector3.setY (Vector3.copy (prjForward this) (forward this)) 0) in
  set_velocityUnit this
    (Vector3.normalize (Vector3.copy (velocityUnit this) (velocity this))).

(** Line 52. *)
Definition airDensityOf (this : ArcadeFlightModel) : R :=
  GROUND_AIR_DENSITY * exp (- Vector3.y (Object3D.position (obj this)) / 8000).

(** Line 53. *)
Definition speedOf (this : ArcadeFlightModel) : R :=
  Vector3.length (velocity this).

(** Lines 55-58: [rightPrjVelocity] is [this._v], which [cross] then
    overwrites; the result is the model and [aoa]. *)
Definition angleOfAttack (this : ArcadeFlightModel) : ArcadeFlightModel * R :=
  let this := set__v this
    (Vector3.projectOnPlane (Vector3.copy (_v this) (velocityUnit this)) (right this)) in
  let aoaAngle := Vector3.angleTo (_v this) (forward this) in
  let this := set__v this (Vector3.cross (_v this) (forward this)) in
  let aoaSign := if Vector3.dot (_v this) (right this) >? 0 then -1 else 1 in
  (this, aoaSign * aoaAngle).

(** Lines 61-64, roll control. *)
Definition rollControl (delta : R) (this : ArcadeFlightModel) : ArcadeFlightModel :=
  if negb (isZero (roll this)) && negb (landed this) then
    set_obj this (Object3D.rotateZ (obj this) (roll this * ROLL_RATE * delta))
  else this.

(** Lines 66-76, pitch control. *)
Definition pitchControl (delta : R) (this : ArcadeFlightModel) : ArcadeFlightModel :=
  if negb (isZero (pitch this))
     && negb (landed this && (pitch this <? 0))
     && ((stall this <? 0)
         || ((pitch this <? 0) && (Vector3.y (up this) >? 0))
         || ((pitch this >? 0) && (Vector3.y (up this) <? 0)))
  then
    set_obj this (Object3D.rotateX (obj this) (- pitch this * PITCH_RATE * delta))
  else this.

(** Lines 78-81, yaw control. *)
Definition yawControl (delta speed : R) (this : ArcadeFlightModel) : ArcadeFlightModel :=
  if negb (isZero (yaw this)) && negb (isZero speed) then
    set_obj this (Object3D.rotateY (obj this) (- yaw this * YAW_RATE * delta))
  else this.

(** Line 85: [prjUp], stored in [this._v]. *)
Definition prjUpOf (this : ArcadeFlightModel) : Vector3.t :=
  Vector3.setY
    (Vector3.projectOnPlane (Vector3.copy (_v this) (up this)) (prjForward this)) 0.

(** Lines 86-87: the angle of the automatic yaw. *)
Definition autoYawAngle (delta : R) (prjForward prjUp : Vector3.t) : R :=
  let sign :=
    if (Vector3.x prjForward * Vector3.z prjUp
        - Vector3.z prjForward * Vector3.x prjUp) >? 0
    then -1 else 1 in
  sign * Vector3.length prjUp * Vector3.length prjUp
  * Vector3.length prjForward * 2.0 * YAW_RATE * delta.

(** Lines 83-88, automatic yaw when rolling. *)
Definition autoYaw (delta : R) (this : ArcadeFlightModel) : ArcadeFlightModel :=
  if (-0.99 <? Vector3.y (forward this)) && (Vector3.y (forward this) <? 0.99) then
    let this := set__v this (prjUpOf this) in
    let prjUp := _v this in
    set_obj this
      (Object3D.rotateOnWorldAxis (obj this) UP
         (autoYawAngle delta (prjForward this) prjUp))
  else this.

(** Lines 90-97, point down when stalling. *)
Definition pointDown (delta : R) (this : ArcadeFlightModel) : ArcadeFlightModel :=
  if (stall this >=? 0) && negb (landed this) then
    let y := Vector3.y (forward this) in
    if y >? -0.8 then
      let this := set__v this
        (Vector3.normalize
           (Vector3.cross (Vector3.copy (_v this) (forward this)) (prjForward this))) in
      let groundRight := _v this in
      set_obj this
        (Object3D.rotateOnWorldAxis (obj this) groundRight
           (STALL_RATE * delta * (if y >? 0 then 1 else -1)))
    else this
  else this.

(** Lines 99-100, thrust. *)
Definition thrustForce (airDensity : R) (this : ArcadeFlightModel) : ArcadeFlightModel :=
  set_thrust this
    (roundToZero
       (Vector3.multiplyScalar (Vector3.copy (thrust this) (forward this))
          (airDensity * MAX_THRUST * throttle this * DRY_MASS))).

(** Lines 102-115, drag. *)
Definition dragForce (airDensity speed aoa : R) (this : ArcadeFlightModel)
  : ArcadeFlightModel :=
  let arcadeInducedDrag := Vector3.dot (forward this) (velocityUnit this) in
  let liftInducedDrag := 1 - cos (2.0 * aoa) in
  let rollDrag := Rabs (Vector3.y (right this)) in
  set_drag this
    (roundToZero
       (Vector3.multiplyScalar
          (Vector3.negate (Vector3.copy (drag this) (velocityUnit this)))
          (JS.pow
             (0.5 * (CD + liftInducedDrag) * airDensity * speed * speed * WING_AREA)
             (1.0 + INDUCED_DRAG_FACTOR * (1.0 - arcadeInducedDrag)
              + ROLL_DRAG_FACTOR * rollDrag)))).

(** Line 118. *)
Definition aoaLiftOf (aoa : R) : R :=
  0.2 * (if (aoa <? PI / 8.0) || (aoa >? 7 * PI / 8.0)
         then sin (6.0 * aoa) else sin (2.0 * aoa)).

(** Line 119. *)
Definition minLiftFactor : R := 2.0 * (0.75 * 0.75 + 0.75) * GROUND_AIR_DENSITY.

(** Lines 120-122. *)
Definition liftFactorOf (airDensity speed : R) (this : ArcadeFlightModel) : R :=
  let fwdY := Vector3.y (forward this) in
  let rightY := Rabs (Vector3.y (right this)) in
  2 * (speed / 256.0)
  * ((-0.5 * fwdY + 1.5) * (-0.5 * rightY + 1.5) + (-0.5 * rightY + 1.5))
  * airDensity.

(** Lines 117-123, lift: the stall index. *)
Definition lift (airDensity speed aoa : R) (this : ArcadeFlightModel)
  : ArcadeFlightModel :=
  let aoaLift := aoaLiftOf aoa in
  let rightY := Rabs (Vector3.y (right this)) in
  let liftFactor := liftFactorOf airDensity speed this in
  set_stall this
    (- clamp (liftFactor / minLiftFactor + aoaLift * (1.0 - rightY) - 1.0) (-1.0) 1.0).

(** Lines 125-133, weight. *)
Definition weightForce (speed : R) (this : ArcadeFlightModel) : ArcadeFlightModel :=
  let weightFwdFactor := - Vector3.y (forward this) in
  let weightDownFactor :=
    - easeOutCirc
        (1.0 - clamp ((speed / 256)
                      * (1.0 - Rabs (Vector3.y (forward this))
                               * (1.0 - Rabs (Vector3.y (right this))))) 0 1) in
  set_weight this
    (Vector3.multiplyScalar
       (Vector3.addScaledVector
          (Vector3.multiplyScalar (Vector3.copy (weight this) UP) weightDownFactor)
          (forward this) weightFwdFactor)
       (DRY_MASS * GRAVITY)).

(** Lines 135-153, the rotation of the velocity towards the nose. *)
Definition velocityRotation (delta speed : R) (this : ArcadeFlightModel)
  : ArcadeFlightModel :=
  if negb (isZero speed) then
    if landed this then
      set_velocity this
        (Vector3.multiplyScalar (Vector3.copy (velocity this) (forward this)) speed)
    else
      let alpha := Vector3.angleTo (velocityUnit this) (forward this) in
      let turningFactor := alpha * TURNING_RATE * delta in
      let this := set__m this (Matrix4.lookAt (_m this) ZERO (forward this) (up this)) in
      let this := set__q1 this (setFromRotationMatrix Quaternion.identity (_m this)) in
      let this := set__m this (Matrix4.lookAt (_m this) ZERO (velocityUnit this) (up this)) in
      let this := set__q0 this (setFromRotationMatrix Quaternion.identity (_m this)) in
      let this := set__q0 this (Quaternion.rotateTowards (_q0 this) (_q1 this) turningFactor) in
      let this := set__m this (Matrix4.invert (_m this)) in
      let this := set__q1 this (setFromRotationMatrix (_q1 this) (_m this)) in
      let this := set__v this
        (Vector3.applyQuaternion
           (Vector3.applyQuaternion (Vector3.copy (_v this) (velocityUnit this)) (_q1 this))
           (_q0 this)) in
      set_velocity this
        (Vector3.multiplyScalar (Vector3.copy (velocity this) (_v this)) speed)
  else this.

(** Lines 155-156, all forces. *)
Definition allForces (this : ArcadeFlightModel) : ArcadeFlightModel :=
  set_forces this
    (Vector3.add
       (Vector3.add (Vector3.add (Vector3.set (forces this) 0 0 0) (thrust this))
          (drag this))
       (weight this)).

(** Lines 158-174, friction. *)
Definition frictionForce (speed : R) (this : ArcadeFlightModel) : ArcadeFlightModel :=
  if landed this then
    let weightMagnitude := DRY_MASS * GRAVITY in
    let this := set__v this (Vector3.setY (Vector3.copy (_v this) (forces this)) 0) in
    let prjForces := _v this in
    let prjForcesMagnitude := Vector3.length prjForces in
    let maxStaticFriction := GROUND_FRICTION_STATIC * weightMagnitude in
    let kineticFriction := GROUND_FRICTION_KINETIC * weightMagnitude in
    let this :=
      if isZero speed && (prjForcesMagnitude <? maxStaticFriction) then
        set_friction this (Vector3.negate (Vector3.copy (friction this) prjForces))
      else
        set_friction this
          (Vector3.multiplyScalar
             (Vector3.normalize
                (Vector3.negate
                   (Vector3.setY (Vector3.copy (friction this) (velocityUnit this)) 0)))
             kineticFriction) in
    set_friction this (roundToZero (friction this))
  else set_friction this (Vector3.set (friction this) 0 0 0).

(** Lines 176-181, timestep: [accel] is [this.forces] after the call. *)
Definition timestep (delta : R) (this : ArcadeFlightModel) : ArcadeFlightModel :=
  let this := set_forces this
    (roundToZero
       (Vector3.divideScalar (Vector3.add (forces this) (friction this)) DRY_MASS)) in
  let accel := forces this in
  let this := set_velocity this (Vector3.addScaledVector (velocity this) accel delta) in
  if landed this && (Vector3.y (velocity this) <? 0) then
    set_velocity this (Vector3.setY (velocity this) 0)
  else this.

(** Line 184, the tolerance of the position update. *)
Definition applyEpsilon (this : ArcadeFlightModel) : R :=
  if throttle this >? 0 then 0.01 else 0.1.

(** Lines 183-187, apply: [roundToZero] changes [this.velocity] itself. *)
Definition applyVelocity (delta : R) (this : ArcadeFlightModel) : ArcadeFlightModel :=
  let this := set_velocity this
    (roundToZero_with (velocity this) (applyEpsilon this)) in
  let this := set_obj this
    (Object3D.set_position (obj this)
       (Vector3.addScaledVector (Object3D.position (obj this)) (velocity this) delta)) in
  if Vector3.y (Object3D.position (obj this)) >? PLANE_DISTANCE_TO_GROUND then
    set_landed this false
  else this.

(** Lines 190-201, avoid ground crashes. *)
Definition avoidGroundCrash (this : ArcadeFlightModel) : ArcadeFlightModel :=
  if Vector3.y (Object3D.position (obj this)) <? PLANE_DISTANCE_TO_GROUND then
    let this := set_obj this
      (Object3D.set_position (obj this)
         (Vector3.setY (Object3D.position (obj this)) PLANE_DISTANCE_TO_GROUND)) in
    let this := set__v this (getWorldDirection (obj this) (_v this)) in
    let this :=
      if Vector3.y (_v this) <? 0.0 then
        let this := set__v this
          (Vector3.add (Vector3.setY (_v this) 0) (Object3D.position (obj this))) in
        set_obj this (Object3D.set_quaternion (obj this) (lookAt (obj this) (_v this)))
      else this in
    let this := set_velocity this (Vector3.setY (velocity this) 0) in
    let this := set_stall this (-1) in
    set_landed this true
  else this.

(** Line 204. *)
Definition terrainHalfSize : R := 2.5 * TERRAIN_SCALE * TERRAIN_MODEL_SIZE.

(** One coordinate through its two tests, lines 205-206 and 207-208. *)
Definition wrap (c : R) : R :=
  let c := if c >? terrainHalfSize then - terrainHalfSize else c in
  if c <? - terrainHalfSize then terrainHalfSize else c.

(** Lines 203-208, avoid flying out of bounds. *)
Definition wrapAround (this : ArcadeFlightModel) : ArcadeFlightModel :=
  let p := Object3D.position (obj this) in
  set_obj this
    (Object3D.set_position (obj this)
       (Vector3.mk (wrap (Vector3.x p)) (Vector3.y p) (wrap (Vector3.z p)))).

(** The controls, lines 61-97. *)
Definition controls (delta speed : R) (this : ArcadeFlightModel) : ArcadeFlightModel :=
  pointDown delta (autoYaw delta (yawControl delta speed
    (pitchControl delta (rollControl delta this)))).

(** The forces and the velocity rotation, lines 99-156. *)
Definition dynamics (delta airDensity speed aoa : R) (this : ArcadeFlightModel)
  : ArcadeFlightModel :=
  allForces (velocityRotation delta speed (weightForce speed
    (lift airDensity speed aoa (dragForce airDensity speed aoa
      (thrustForce airDensity this))))).

(** Lines 45-187: everything up to and including the position update
    and the test that clears [landed]. *)
Definition advance (delta : R) (this : ArcadeFlightModel) : ArcadeFlightModel :=
  let this := basis this in
  let airDensity := airDensityOf this in
  let speed := speedOf this in
  let (this, aoa) := angleOfAttack this in
  let this := controls delta speed this in
  let this := dynamics delta airDensity speed aoa this in
  let this := frictionForce speed this in
  let this := timestep delta this in
  applyVelocity delta this.

(** Lines 43-209. *)
Definition step (delta : R) (this : ArcadeFlightModel) : ArcadeFlightModel :=
  let this := advance delta this in
  let this := avoidGroundCrash this in
  wrapAround this.

(** Lines 211-213. *)
Definition getStallStatus (this : ArcadeFlightModel) : R := stall this.

(** *** The model part-way through a tick

    [advance] cut at the places the statements refer to. *)

(** After lines 45-58. *)
Definition prepared (this : ArcadeFlightModel) : ArcadeFlightModel :=
  fst (angleOfAttack (basis this)).

(** After the controls, lines 45-97. *)
Definition steered (delta : R) (this : ArcadeFlightModel) : ArcadeFlightModel :=
  controls delta (speedOf (basis this)) (prepared this).

(** After "all forces", lines 45-156. *)
Definition powered (delta : R) (this : ArcadeFlightModel) : ArcadeFlightModel :=
  dynamics delta (airDensityOf (basis this)) (speedOf (basis this))
    (snd (angleOfAttack (basis this))) (steered delta this).

(** After the friction, lines 45-174. *)
Definition forced (delta : R) (this : ArcadeFlightModel) : ArcadeFlightModel :=
  frictionForce (speedOf (basis this)) (powered delta this).

(** The states the roll, pitch, yaw and automatic yaw blocks start from. *)
Definition beforePitch (delta : R) (this : ArcadeFlightModel) : ArcadeFlightModel :=
  rollControl delta (prepared this).

Definition beforeYaw (delta : R) (this : ArcadeFlightModel) : ArcadeFlightModel :=
  pitchControl delta (beforePitch delta this).

Definition beforeAutoYaw (delta : R) (this : ArcadeFlightModel) : ArcadeFlightModel :=
  yawControl delta (speedOf (basis this)) (beforeYaw delta this).

(** *** Readings of the model *)

Definition altitude (this : ArcadeFlightModel) : R :=
  Vector3.y (Object3D.position (obj this)).

(** The body axes at the start of a tick. *)
Definition forwardOf (this : ArcadeFlightModel) : Vector3.t :=
  Vector3.applyQuaternion FORWARD (Object3D.quaternion (obj this)).
Definition upOf (this : ArcadeFlightModel) : Vector3.t :=
  Vector3.applyQuaternion UP (Object3D.quaternion (obj this)).
Definition rightOf (this : ArcadeFlightModel) : Vector3.t :=
  Vector3.applyQuaternion RIGHT (Object3D.quaternion (obj this)).

(** The condition of the pitch block, lines 67-73, on the tick-start
    state. *)
Definition pitchAllowed (this : ArcadeFlightModel) : bool :=
  negb (isZero (pitch this))
  && negb (landed this && (pitch this <? 0))
  && ((stall this <? 0)
      || ((pitch this <? 0) && (Vector3.y (upOf this) >? 0))
      || ((pitch this >? 0) && (Vector3.y (upOf this) <? 0))).

(** The weight at zero speed, lines 126-133 with [speed = 0]: straight
    down, plus the pull along the nose. *)
Definition restWeight (this : ArcadeFlightModel) : Vector3.t :=
  Vector3.multiplyScalar
    (Vector3.addScaledVector (Vector3.multiplyScalar UP (-1)) (forwardOf this)
       (- Vector3.y (forwardOf this)))
    (DRY_MASS * GRAVITY).

(** The rest state of the ground-stick property: landed at the ground
    clearance, not moving, no throttle, no control input. *)
Definition atRest (this : ArcadeFlightModel) : Prop :=
  velocity this = ZERO /\ throttle this = 0
  /\ roll this = 0 /\ pitch this = 0 /\ yaw this = 0
  /\ landed this = true /\ altitude this = PLANE_DISTANCE_TO_GROUND.

(** An attitude and a place in which nothing moves a model at rest: the
    pull of the weight along the nose is below the static friction, the
    bank indicator [prjUp] of line 85 is zero, and the position is
    inside the world. *)
Definition settled (this : ArcadeFlightModel) : Prop :=
  Rabs (Vector3.y (forwardOf this))
  * Vector3.length (Vector3.setY (forwardOf this) 0) < GROUND_FRICTION_STATIC
  /\ prjUpOf (basis this) = ZERO
  /\ - terrainHalfSize <= Vector3.x (Object3D.position (obj this)) <= terrainHalfSize
  /\ - terrainHalfSize <= Vector3.z (Object3D.position (obj this)) <= terrainHalfSize.

(** The thrust, lines 99-100, from the tick-start state. *)
Definition thrustOf (this : ArcadeFlightModel) : Vector3.t :=
  roundToZero
    (Vector3.multiplyScalar (forwardOf this)
       (airDensityOf this * MAX_THRUST * throttle this * DRY_MASS)).

(** The two arguments of [Math.pow] in the drag, lines 111-112, from
    the tick-start state. *)
Definition dragBaseOf (this : ArcadeFlightModel) : R :=
  let aoa := snd (angleOfAttack (basis this)) in
  let liftInducedDrag := 1 - cos (2.0 * aoa) in
  0.5 * (CD + liftInducedDrag) * airDensityOf this * speedOf this * speedOf this
  * WING_AREA.

Definition dragExponentOf (this : ArcadeFlightModel) : R :=
  let arcadeInducedDrag :=
    Vector3.dot (forwardOf this) (Vector3.normalize (velocity this)) in
  let rollDrag := Rabs (Vector3.y (rightOf this)) in
  1.0 + INDUCED_DRAG_FACTOR * (1.0 - arcadeInducedDrag) + ROLL_DRAG_FACTOR * rollDrag.

(** The state the "point down when stalling" block starts from. *)
Definition beforePointDown (delta : R) (this : ArcadeFlightModel) : ArcadeFlightModel :=
  autoYaw delta (beforeAutoYaw delta this).

(** The axis of the rotation of line 95 before [normalize ()], from the
    tick-start state. *)
Definition groundRightOf (this : ArcadeFlightModel) : Vector3.t :=
  Vector3.cross (forwardOf this) (Vector3.setY (forwardOf this) 0).

(** The squared norm of the orientation quaternion. *)
Definition orientationNormSq (this : ArcadeFlightModel) : R :=
  Quaternion.dot (Object3D.quaternion (obj this)) (Object3D.quaternion (obj this)).

(** [this] with the orientation of [r]. *)
Definition requaternion (this r : ArcadeFlightModel) : ArcadeFlightModel :=
  set_obj this
    (Object3D.set_quaternion (obj this) (Object3D.quaternion (obj r))).

(** [n] ticks of [delta] seconds. *)
Definition steps (delta : R) (n : nat) (this : ArcadeFlightModel) : ArcadeFlightModel :=
  Nat.iter n (step delta) this.

End Step.

(** ** A concrete setting

    Values for the imported constants, and the two scene-graph methods for
    an object attached to the scene root with unit scale that is not a
    camera: its world matrix is its local matrix. *)

Definition sampleDefs : Defs := {|
  PITCH_RATE := 1;
  ROLL_RATE := 1;
  YAW_RATE := 1;
  PLANE_DISTANCE_TO_GROUND := 2;
  TERRAIN_SCALE := 100;
  TERRAIN_MODEL_SIZE := 100;
  FORWARD := Vector3.mk 0 0 1;
  RIGHT := Vector3.mk (-1) 0 0;
  isZero_epsilon := 0.00001;
  roundToZero_epsilon := 0.00001 |}.

(** The third column of the rotation matrix of [q], as [Matrix4.compose]
    builds it. *)
Definition zAxisOf (q : Quaternion.t) : Vector3.t :=
  let x := Quaternion.x q in let y := Quaternion.y q in
  let z := Quaternion.z q in let w := Quaternion.w q in
  let x2 := x + x in let y2 := y + y in let z2 := z + z in
  Vector3.mk (x * z2 + w * y2) (y * z2 - w * x2) (1 - (x * x2 + y * y2)).

Definition rootWorld : World := {|
  getWorldDirection o _ := Vector3.normalize (zAxisOf (Object3D.quaternion o));
  lookAt o v :=
    setFromRotationMatrix (Object3D.quaternion o)
      (Matrix4.lookAt Matrix4.identity v (Object3D.position o) (Vector3.mk 0 1 0)) |}.

(** A model as its constructor leaves it (zero vectors, identity
    quaternions and matrix), placed at [o], with no velocity, roll, yaw or
    throttle. *)
Definition newModel (o : Object3D.t) (landed0 : bool) (stall0 pitch0 : R)
  : ArcadeFlightModel :=
  mkModel o ZERO 0 pitch0 0 0 landed0 stall0 ZERO Quaternion.identity
    Quaternion.identity Matrix4.identity ZERO ZERO ZERO ZERO ZERO ZERO ZERO ZERO ZERO ZERO.

(** Standing level on the ground, at the ground clearance. *)
Definition parked : ArcadeFlightModel :=
  newModel (Object3D.mk Quaternion.identity (Vector3.mk 0 2 0)) true (-1) 0.

(** Standing level, below the ground clearance. *)
Definition sunk : ArcadeFlightModel :=
  newModel (Object3D.mk Quaternion.identity (Vector3.mk 0 0 0)) true (-1) 0.

(** Level in the air without speed, 9.8 above the ground clearance. *)
Definition hovering : ArcadeFlightModel :=
  newModel (Object3D.mk Quaternion.identity (Vector3.mk 0 11.8 0)) false (-1) 0.

(** Standing on the ground, rolled about the nose (half-angle sine 3/5). *)
Definition banked : ArcadeFlightModel :=
  newModel (Object3D.mk (Quaternion.mk 0 0 (3 / 5) (4 / 5)) (Vector3.mk 0 2 0)) true (-1) 0.

(** In the air, stalling, nose above the horizon and upright, with a
    negative pitch input. *)
Definition noseUp : ArcadeFlightModel :=
  newModel (Object3D.mk (Quaternion.mk (- 3 / 5) 0 0 (4 / 5)) (Vector3.mk 0 100 0))
    false 0.5 (-1).

(** The same, with a positive pitch input. *)
Definition pullUp : ArcadeFlightModel :=
  newModel (Object3D.mk (Quaternion.mk (- 3 / 5) 0 0 (4 / 5)) (Vector3.mk 0 100 0))
    false 0.5 1.

(** Standing on its tail below the ground clearance, nose straight up,
    [landed] set, with throttle 216/245. *)
Definition rocket : ArcadeFlightModel :=
  mkModel
    (Object3D.mk (Quaternion.mk (1 / 2) (1 / 2) (1 / 2) (- 1 / 2)) (Vector3.mk 0 0 0))
    ZERO 0 0 0 (216 / 245) true (-1) ZERO Quaternion.identity
    Quaternion.identity Matrix4.identity ZERO ZERO ZERO ZERO ZERO ZERO ZERO ZERO ZERO ZERO.

(** Rolling level along the runway at 10 m/s, at the ground clearance. *)
Definition taxiing : ArcadeFlightModel :=
  mkModel (Object3D.mk Quaternion.identity (Vector3.mk 0 2 0))
    (Vector3.mk 0 0 10) 0 0 0 0 true (-1) ZERO Quaternion.identity
    Quaternion.identity Matrix4.identity ZERO ZERO ZERO ZERO ZERO ZERO ZERO ZERO ZERO ZERO.

(** Level in the air without speed, with the stall value [0] the class
    body gives a new model. *)
Definition stalledLevel : ArcadeFlightModel :=
  newModel (Object3D.mk Quaternion.identity (Vector3.mk 0 100 0)) false 0 0.

(** * Proofs *)

(** ** Comparisons *)

Lemma lt_spec (a b : R) : (a <? b) = true <-> a < b.
Proof. unfold JS.lt. destruct (Rlt_dec a b); split; intros; try discriminate; tauto. Qed.

Lemma lt_false (a b : R) : (a <? b) = false <-> b <= a.
Proof. unfold JS.lt. destruct (Rlt_dec a b); split; intros; try discriminate; try lra; reflexivity. Qed.

Lemma gt_spec (a b : R) : (a >? b) = true <-> b < a.
Proof. apply lt_spec. Qed.

Lemma gt_false (a b : R) : (a >? b) = false <-> a <= b.
Proof. apply lt_false. Qed.

Lemma eq_spec (a b : R) : (a =? b) = true <-> a = b.
Proof. unfold JS.eq. destruct (Req_dec_T a b); split; intros; try discriminate; tauto. Qed.

Lemma eq_false (a b : R) : (a =? b) = false <-> a <> b.
Proof. unfold JS.eq. destruct (Req_dec_T a b); split; intros; try discriminate; tauto. Qed.

(** ** Projections of assignments *)

Ltac proj_simpl :=
  cbn beta iota zeta delta
    [obj velocity roll pitch yaw throttle landed stall _v _q0 _q1 _m drag thrust
     weight friction forces forward up right prjForward velocityUnit
     set_obj set_velocity set_landed set_stall set__v set__q0 set__q1 set__m
     set_drag set_thrust set_weight set_friction set_forces set_forward set_up
     set_right set_prjForward set_velocityUnit
     Object3D.quaternion Object3D.position Object3D.set_quaternion
     Object3D.set_position fst snd];
  unfold Vector3.copy.

Section Blocks.
Context `{D : Defs} `{W : World}.

Lemma wrap_range (c : R) :
  0 <= terrainHalfSize -> - terrainHalfSize <= wrap c <= terrainHalfSize.
Proof.
  intros HH. unfold wrap.
  destruct (c >? terrainHalfSize) eqn:E1.
  - destruct (- terrainHalfSize <? - terrainHalfSize) eqn:E2.
    + apply lt_spec in E2. lra.
    + lra.
  - apply gt_false in E1.
    destruct (c <? - terrainHalfSize) eqn:E2.
    + lra.
    + apply lt_false in E2. lra.
Qed.

Lemma wrap_above (c : R) : terrainHalfSize < c -> wrap c = - terrainHalfSize.
Proof.
  intros Hc. unfold wrap.
  destruct (c >? terrainHalfSize) eqn:E1.
  - destruct (- terrainHalfSize <? - terrainHalfSize) eqn:E2; [|reflexivity].
    apply lt_spec in E2. lra.
  - apply gt_false in E1. lra.
Qed.

Lemma wrap_below (c : R) :
  0 <= terrainHalfSize -> c < - terrainHalfSize -> wrap c = terrainHalfSize.
Proof.
  intros HH Hc. unfold wrap.
  destruct (c >? terrainHalfSize) eqn:E1.
  - apply gt_spec in E1. lra.
  - destruct (c <? - terrainHalfSize) eqn:E2; [reflexivity|].
    apply lt_false in E2. lra.
Qed.

Lemma wrap_inside (c : R) :
  - terrainHalfSize <= c <= terrainHalfSize -> wrap c = c.
Proof.
  intros Hc. unfold wrap.
  destruct (c >? terrainHalfSize) eqn:E1.
  - apply gt_spec in E1. lra.
  - destruct (c <? - terrainHalfSize) eqn:E2; [|reflexivity].
    apply lt_spec in E2. lra.
Qed.

(** C6.  World wrap, for a world half-size [terrainHalfSize >= 0]: at the
    end of every [step], a pre-wrap [position.x] above the half-size is
    set to exactly minus the half-size, one below minus the half-size is
    set to exactly the half-size, and one inside is kept; the same holds,
    independently, for [position.z]; the altitude and the velocity are not
    changed by the wrap; so after every tick [position.x] and
    [position.z] lie within the world. *)
Theorem world_wrap (delta : R) (this : ArcadeFlightModel) :
  0 <= terrainHalfSize ->
  let pre := avoidGroundCrash (advance delta this) in
  let post := step delta this in
  let px := Vector3.x (Object3D.position (obj pre)) in
  let pz := Vector3.z (Object3D.position (obj pre)) in
  let qx := Vector3.x (Object3D.position (obj post)) in
  let qz := Vector3.z (Object3D.position (obj post)) in
  (terrainHalfSize < px -> qx = - terrainHalfSize)
  /\ (px < - terrainHalfSize -> qx = terrainHalfSize)
  /\ (- terrainHalfSize <= px <= terrainHalfSize -> qx = px)
  /\ (terrainHalfSize < pz -> qz = - terrainHalfSize)
  /\ (pz < - terrainHalfSize -> qz = terrainHalfSize)
  /\ (- terrainHalfSize <= pz <= terrainHalfSize -> qz = pz)
  /\ Vector3.y (Object3D.position (obj post)) = Vector3.y (Object3D.position (obj pre))
  /\ velocity post = velocity pre
  /\ - terrainHalfSize <= qx <= terrainHalfSize
  /\ - terrainHalfSize <= qz <= terrainHalfSize.
Proof.
  intros HH pre post px pz qx qz.
  assert (Ex : qx = wrap px) by reflexivity.
  assert (Ez : qz = wrap pz) by reflexivity.
  rewrite Ex, Ez.
  split; [apply wrap_above|].
  split; [apply wrap_below; assumption|].
  split; [apply wrap_inside|].
  split; [apply wrap_above|].
  split; [apply wrap_below; assumption|].
  split; [apply wrap_inside|].
  split; [reflexivity|].
  split; [reflexivity|].
  split; apply wrap_range; assumption.
Qed.

(** ** What each block writes *)

Ltac shape :=
  cbv zeta; intros;
  unfold rollControl, pitchControl, yawControl, autoYaw, pointDown,
    velocityRotation, frictionForce, timestep, applyVelocity, avoidGroundCrash,
    Object3D.rotateX, Object3D.rotateY, Object3D.rotateZ,
    Object3D.rotateOnAxis, Object3D.rotateOnWorldAxis;
  proj_simpl;
  repeat match goal with
         | |- context [if ?c then _ else _] => destruct c
         end; reflexivity.

Lemma rollControl_shape delta this :
  rollControl delta this = requaternion this (rollControl delta this).
Proof. unfold requaternion. shape. Qed.

Lemma pitchControl_shape delta this :
  pitchControl delta this = requaternion this (pitchControl delta this).
Proof. unfold requaternion. shape. Qed.

Lemma yawControl_shape delta speed this :
  yawControl delta speed this = requaternion this (yawControl delta speed this).
Proof. unfold requaternion. shape. Qed.

Lemma autoYaw_shape delta this :
  let r := autoYaw delta this in
  r = requaternion (set__v this (_v r)) r.
Proof. unfold requaternion. shape. Qed.

Lemma pointDown_shape delta this :
  let r := pointDown delta this in
  r = requaternion (set__v this (_v r)) r.
Proof. unfold requaternion. shape. Qed.

Lemma velocityRotation_shape delta speed this :
  let r := velocityRotation delta speed this in
  r = set_velocity
        (set__v (set__q1 (set__q0 (set__m this (_m r)) (_q0 r)) (_q1 r)) (_v r))
        (velocity r).
Proof. shape. Qed.

Lemma frictionForce_shape speed this :
  let r := frictionForce speed this in
  r = set_friction (set__v this (_v r)) (friction r).
Proof. shape. Qed.

Lemma timestep_shape delta this :
  let r := timestep delta this in
  r = set_velocity (set_forces this (forces r)) (velocity r).
Proof. shape. Qed.

Lemma apply_shape delta this :
  let r := applyVelocity delta this in
  r = set_landed
        (set_obj (set_velocity this (velocity r))
           (Object3D.set_position (obj this) (Object3D.position (obj r))))
        (landed r).
Proof. shape. Qed.

Lemma avoidGroundCrash_shape this :
  let r := avoidGroundCrash this in
  r = set_landed
        (set_stall (set_velocity (set__v (set_obj this (obj r)) (_v r)) (velocity r))
           (stall r))
        (landed r).
Proof. shape. Qed.

End Blocks.

Section Pipeline.
Context `{D : Defs} `{W : World}.
(** ** The pipeline *)

Lemma advance_eq delta this :
  advance delta this = applyVelocity delta (timestep delta (forced delta this)).
Proof.
  unfold advance, forced, powered, steered, prepared, angleOfAttack.
  cbv beta iota zeta delta [fst snd]. reflexivity.
Qed.

Lemma clamp_range (x lo hi : R) : lo <= hi -> lo <= clamp x lo hi <= hi.
Proof.
  intros Hle. unfold clamp, Rmax, Rmin.
  destruct (Rle_dec hi x); destruct (Rle_dec lo _); lra.
Qed.

Lemma stall_forced delta this :
  -1 <= stall (forced delta this) <= 1.
Proof.
  unfold forced. rewrite frictionForce_shape. proj_simpl.
  unfold powered, dynamics, allForces. proj_simpl.
  rewrite velocityRotation_shape. proj_simpl.
  unfold weightForce, lift. proj_simpl.
  match goal with
  | |- _ <= - clamp ?x _ _ <= _ => pose proof (clamp_range x (-1.0) 1.0)
  end.
  lra.
Qed.

Lemma stall_advance delta this :
  stall (advance delta this) = stall (forced delta this).
Proof.
  rewrite advance_eq, apply_shape. proj_simpl.
  rewrite timestep_shape. proj_simpl. reflexivity.
Qed.

Lemma stall_avoidGroundCrash this :
  stall (avoidGroundCrash this)
  = if Vector3.y (Object3D.position (obj this)) <? PLANE_DISTANCE_TO_GROUND
    then -1 else stall this.
Proof.
  unfold avoidGroundCrash.
  destruct (_ <? PLANE_DISTANCE_TO_GROUND); reflexivity.
Qed.

(** C5.  After every call to [step] the stored stall value lies within
    [-1, 1], whatever the speed, the angle of attack and the attitude, and
    [getStallStatus] returns exactly that stored value. *)
Theorem stall_bound (delta : R) (this : ArcadeFlightModel) :
  -1 <= stall (step delta this) <= 1
  /\ getStallStatus (step delta this) = stall (step delta this).
Proof.
  split; [|reflexivity].
  unfold step, wrapAround. proj_simpl.
  rewrite stall_avoidGroundCrash.
  destruct (_ <? PLANE_DISTANCE_TO_GROUND).
  - lra.
  - rewrite stall_advance. apply stall_forced.
Qed.

(** ** The position update and the ground *)

Lemma step_eq delta this :
  step delta this = wrapAround (avoidGroundCrash (advance delta this)).
Proof. reflexivity. Qed.

Lemma altitude_wrapAround this : altitude (wrapAround this) = altitude this.
Proof. reflexivity. Qed.

Lemma landed_wrapAround this : landed (wrapAround this) = landed this.
Proof. reflexivity. Qed.

Lemma velocity_wrapAround this : velocity (wrapAround this) = velocity this.
Proof. reflexivity. Qed.

Lemma quaternion_wrapAround this :
  Object3D.quaternion (obj (wrapAround this)) = Object3D.quaternion (obj this).
Proof. reflexivity. Qed.

Lemma avoidGroundCrash_below this :
  altitude this < PLANE_DISTANCE_TO_GROUND ->
  let grounded :=
    Object3D.set_position (obj this)
      (Vector3.setY (Object3D.position (obj this)) PLANE_DISTANCE_TO_GROUND) in
  let d := getWorldDirection grounded (_v this) in
  let r := avoidGroundCrash this in
  altitude r = PLANE_DISTANCE_TO_GROUND
  /\ Vector3.y (velocity r) = 0
  /\ stall r = -1
  /\ landed r = true
  /\ Object3D.position (obj r) = Object3D.position grounded
  /\ Object3D.quaternion (obj r)
     = if Vector3.y d <? 0
       then lookAt grounded
              (Vector3.add (Vector3.setY d 0) (Object3D.position grounded))
       else Object3D.quaternion (obj this).
Proof.
  intros Hlow grounded d r.
  apply lt_spec in Hlow. unfold altitude in Hlow.
  unfold r, d, grounded, altitude, avoidGroundCrash. rewrite Hlow.
  replace 0.0 with 0 by lra. proj_simpl.
  match goal with |- context [if ?c then _ else _] => destruct c end;
    proj_simpl; repeat split; reflexivity.
Qed.

Lemma avoidGroundCrash_not_below this :
  PLANE_DISTANCE_TO_GROUND <= altitude this ->
  avoidGroundCrash this = this.
Proof.
  intros Hhigh. apply lt_false in Hhigh. unfold altitude in Hhigh.
  unfold avoidGroundCrash. rewrite Hhigh. reflexivity.
Qed.


(** ** What the blocks before the position update leave alone *)

Ltac frame_forced :=
  unfold forced;
  rewrite frictionForce_shape; proj_simpl;
  unfold powered, dynamics, allForces; proj_simpl;
  rewrite velocityRotation_shape; proj_simpl;
  unfold weightForce, lift, dragForce, thrustForce; proj_simpl;
  unfold steered, controls;
  rewrite pointDown_shape; unfold requaternion; proj_simpl;
  rewrite autoYaw_shape; unfold requaternion; proj_simpl;
  rewrite yawControl_shape; unfold requaternion; proj_simpl;
  rewrite pitchControl_shape; unfold requaternion; proj_simpl;
  rewrite rollControl_shape; unfold requaternion; proj_simpl;
  unfold prepared, angleOfAttack, basis; proj_simpl.

Lemma landed_forced delta this : landed (forced delta this) = landed this.
Proof. frame_forced. reflexivity. Qed.

Lemma position_forced delta this :
  Object3D.position (obj (forced delta this)) = Object3D.position (obj this).
Proof. frame_forced. reflexivity. Qed.

Lemma roll_forced delta this : roll (forced delta this) = roll this.
Proof. frame_forced. reflexivity. Qed.

Lemma pitch_forced delta this : pitch (forced delta this) = pitch this.
Proof. frame_forced. reflexivity. Qed.

Lemma yaw_forced delta this : yaw (forced delta this) = yaw this.
Proof. frame_forced. reflexivity. Qed.

Lemma throttle_forced delta this : throttle (forced delta this) = throttle this.
Proof. frame_forced. reflexivity. Qed.

Lemma quaternion_forced delta this :
  Object3D.quaternion (obj (forced delta this))
  = Object3D.quaternion (obj (steered delta this)).
Proof.
  unfold forced;
  rewrite frictionForce_shape; proj_simpl;
  unfold powered, dynamics, allForces; proj_simpl;
  rewrite velocityRotation_shape; proj_simpl;
  unfold weightForce, lift, dragForce, thrustForce; proj_simpl. reflexivity.
Qed.

(** ** Timestep and apply *)

Ltac split_ifs :=
  repeat match goal with |- context [if ?c then _ else _] => destruct c end.

Lemma snap_cases epsilon c : snap epsilon c = 0 \/ snap epsilon c = c.
Proof. unfold snap. destruct (_ <? _); auto. Qed.

Lemma snap_nonneg epsilon c : 0 <= c -> 0 <= snap epsilon c.
Proof. intros. destruct (snap_cases epsilon c) as [E|E]; rewrite E; lra. Qed.

Lemma snap_nonpos epsilon c : c <= 0 -> snap epsilon c <= 0.
Proof. intros. destruct (snap_cases epsilon c) as [E|E]; rewrite E; lra. Qed.

Lemma snap_0 epsilon : snap epsilon 0 = 0.
Proof. destruct (snap_cases epsilon 0); assumption. Qed.

Lemma landed_timestep delta this : landed (timestep delta this) = landed this.
Proof. rewrite timestep_shape. reflexivity. Qed.

Lemma obj_timestep delta this : obj (timestep delta this) = obj this.
Proof. rewrite timestep_shape. reflexivity. Qed.

Lemma throttle_timestep delta this : throttle (timestep delta this) = throttle this.
Proof. rewrite timestep_shape. reflexivity. Qed.

Lemma velocity_timestep delta this :
  let accel :=
    roundToZero
      (Vector3.divideScalar (Vector3.add (forces this) (friction this)) DRY_MASS) in
  let v := Vector3.addScaledVector (velocity this) accel delta in
  velocity (timestep delta this)
  = if landed this && (Vector3.y v <? 0) then Vector3.setY v 0 else v.
Proof.
  intros accel v. unfold v, accel, timestep. proj_simpl.
  match goal with |- context [if ?c then _ else _] => destruct c end; reflexivity.
Qed.

Lemma velocity_timestep_landed delta this :
  landed this = true -> 0 <= Vector3.y (velocity (timestep delta this)).
Proof.
  intros Hl. rewrite velocity_timestep. rewrite Hl. cbn [andb].
  match goal with |- context [if ?c then _ else _] => destruct c eqn:E end.
  - cbn. lra.
  - apply lt_false in E. exact E.
Qed.

Lemma velocity_apply delta this :
  velocity (applyVelocity delta this) = roundToZero_with (velocity this) (applyEpsilon this).
Proof.
  unfold applyVelocity, applyEpsilon. proj_simpl.
  split_ifs; reflexivity.
Qed.

Lemma position_apply delta this :
  Object3D.position (obj (applyVelocity delta this))
  = Vector3.addScaledVector (Object3D.position (obj this))
      (velocity (applyVelocity delta this)) delta.
Proof.
  rewrite velocity_apply. unfold applyVelocity, applyEpsilon. proj_simpl.
  split_ifs; reflexivity.
Qed.

Lemma quaternion_apply delta this :
  Object3D.quaternion (obj (applyVelocity delta this)) = Object3D.quaternion (obj this).
Proof.
  unfold applyVelocity. proj_simpl.
  split_ifs; reflexivity.
Qed.

Lemma landed_apply delta this :
  landed (applyVelocity delta this)
  = if altitude (applyVelocity delta this) >? PLANE_DISTANCE_TO_GROUND then false
    else landed this.
Proof.
  unfold altitude. rewrite position_apply, velocity_apply.
  unfold applyVelocity, applyEpsilon. proj_simpl.
  match goal with |- context [if ?c then false else _] => destruct c end;
    reflexivity.
Qed.

Lemma altitude_advance delta this :
  altitude (advance delta this)
  = altitude this + Vector3.y (velocity (advance delta this)) * delta.
Proof.
  rewrite advance_eq. unfold altitude. rewrite position_apply.
  rewrite obj_timestep, position_forced. reflexivity.
Qed.

Lemma landed_advance delta this :
  landed (advance delta this)
  = if altitude (advance delta this) >? PLANE_DISTANCE_TO_GROUND then false
    else landed this.
Proof.
  rewrite advance_eq at 1. rewrite landed_apply, <- advance_eq.
  rewrite landed_timestep, landed_forced. reflexivity.
Qed.

Lemma velocity_advance_landed delta this :
  landed this = true -> 0 <= Vector3.y (velocity (advance delta this)).
Proof.
  intros Hl. rewrite advance_eq, velocity_apply. unfold roundToZero_with.
  cbn [Vector3.y]. apply snap_nonneg, velocity_timestep_landed.
  rewrite landed_forced. exact Hl.
Qed.

Lemma step_floor delta this :
  PLANE_DISTANCE_TO_GROUND <= altitude (step delta this).
Proof.
  rewrite step_eq, altitude_wrapAround.
  destruct (Rlt_dec (altitude (advance delta this)) PLANE_DISTANCE_TO_GROUND)
    as [Hlow|Hhigh].
  - destruct (avoidGroundCrash_below _ Hlow) as (Ha & _). rewrite Ha. lra.
  - rewrite avoidGroundCrash_not_below by lra. lra.
Qed.





End Pipeline.

Section Controls.
Context `{D : Defs} `{W : World}.

(** ** The control inputs *)



(** ** The pitch block *)

Lemma steered_eq delta this :
  steered delta this
  = pointDown delta
      (autoYaw delta
         (yawControl delta (speedOf (basis this))
            (pitchControl delta (rollControl delta (prepared this))))).
Proof. reflexivity. Qed.

Lemma pitchControl_condition delta this :
  let before := beforePitch delta this in
  negb (isZero (pitch before))
  && negb (landed before && (pitch before <? 0))
  && ((stall before <? 0)
      || ((pitch before <? 0) && (Vector3.y (up before) >? 0))
      || ((pitch before >? 0) && (Vector3.y (up before) <? 0)))
  = pitchAllowed this.
Proof.
  cbv zeta. unfold beforePitch. rewrite rollControl_shape.
  unfold requaternion, prepared, angleOfAttack, basis. proj_simpl. reflexivity.
Qed.

Lemma pitch_beforePitch delta this : pitch (beforePitch delta this) = pitch this.
Proof.
  unfold beforePitch. rewrite rollControl_shape.
  unfold requaternion, prepared, angleOfAttack, basis. proj_simpl. reflexivity.
Qed.

Lemma pitchControl_obj delta this :
  obj (pitchControl delta (beforePitch delta this))
  = if pitchAllowed this
    then Object3D.rotateX (obj (beforePitch delta this))
           (- pitch this * PITCH_RATE * delta)
    else obj (beforePitch delta this).
Proof.
  unfold pitchControl at 1.
  pose proof (pitchControl_condition delta this) as Hc. cbv zeta in Hc.
  rewrite Hc, pitch_beforePitch.
  destruct (pitchAllowed this); reflexivity.
Qed.

Lemma pitchAllowed_blocked this :
  0 <= stall this -> 0 < Vector3.y (upOf this) -> 0 < pitch this ->
  pitchAllowed this = false.
Proof.
  intros Hs Hu Hp. unfold pitchAllowed.
  assert (E1 : (stall this <? 0) = false) by (apply lt_false; lra).
  assert (E2 : (pitch this <? 0) = false) by (apply lt_false; lra).
  assert (E3 : (Vector3.y (upOf this) <? 0) = false) by (apply lt_false; lra).
  rewrite E1, E2, E3. cbn [andb orb]. rewrite !andb_false_r. reflexivity.
Qed.

(** C1, as the code has it.  In every tick the pitch block rotates the
    aircraft about its body x axis by [- pitch * PITCH_RATE * delta]
    exactly when [pitchAllowed] holds: the pitch input is not near zero,
    not (landed and [pitch < 0]), and one of [stall < 0], [pitch < 0]
    while [up.y > 0], [pitch > 0] while [up.y < 0]; otherwise it leaves
    the orientation as the roll block left it.  In particular, when
    [stall >= 0] and [up.y > 0], an input [pitch > 0] leaves the
    orientation unchanged by the pitch block. *)
Theorem pitch_gate (delta : R) (this : ArcadeFlightModel) :
  let before := beforePitch delta this in
  let after := pitchControl delta before in
  obj after
  = (if pitchAllowed this
     then Object3D.rotateX (obj before) (- pitch this * PITCH_RATE * delta)
     else obj before)
  /\ (0 <= stall this -> 0 < Vector3.y (upOf this) -> 0 < pitch this ->
      obj after = obj before).
Proof.
  intros before after. unfold after, before.
  split; [apply pitchControl_obj|].
  intros Hs Hu Hp.
  rewrite pitchControl_obj, (pitchAllowed_blocked _ Hs Hu Hp). reflexivity.
Qed.

(** ** The automatic yaw *)


Lemma forward_beforeAutoYaw delta this :
  forward (beforeAutoYaw delta this) = forwardOf this.
Proof.
  unfold beforeAutoYaw, beforeYaw, beforePitch.
  rewrite yawControl_shape; unfold requaternion; proj_simpl.
  rewrite pitchControl_shape; unfold requaternion; proj_simpl.
  rewrite rollControl_shape; unfold requaternion; proj_simpl.
  unfold prepared, angleOfAttack, basis. proj_simpl. reflexivity.
Qed.

Lemma prjForward_beforeAutoYaw delta this :
  prjForward (beforeAutoYaw delta this) = Vector3.setY (forwardOf this) 0.
Proof.
  unfold beforeAutoYaw, beforeYaw, beforePitch.
  rewrite yawControl_shape; unfold requaternion; proj_simpl.
  rewrite pitchControl_shape; unfold requaternion; proj_simpl.
  rewrite rollControl_shape; unfold requaternion; proj_simpl.
  unfold prepared, angleOfAttack, basis. proj_simpl. reflexivity.
Qed.

Lemma autoYaw_in_range delta this :
  -0.99 < Vector3.y (forward this) < 0.99 ->
  obj (autoYaw delta this)
  = Object3D.rotateOnWorldAxis (obj this) UP
      (autoYawAngle delta (prjForward this) (prjUpOf this)).
Proof.
  intros [Hlo Hhi]. unfold autoYaw.
  apply lt_spec in Hlo. apply lt_spec in Hhi. rewrite Hlo, Hhi.
  reflexivity.
Qed.

Lemma rollControl_landed delta this :
  landed this = true -> rollControl delta this = this.
Proof.
  intros Hl. unfold rollControl. rewrite Hl, andb_false_r. reflexivity.
Qed.


End Controls.

Ltac vec_simpl :=
  unfold Vector3.set, Vector3.copy, Vector3.setY, Vector3.add, Vector3.sub,
    Vector3.divideScalar, Vector3.multiplyScalar, Vector3.addScaledVector,
    Vector3.negate, Vector3.dot, Vector3.lengthSq, Vector3.cross, UP, ZERO;
  cbn [Vector3.x Vector3.y Vector3.z].

Lemma vec_ext (a b : Vector3.t) :
  Vector3.x a = Vector3.x b -> Vector3.y a = Vector3.y b ->
  Vector3.z a = Vector3.z b -> a = b.
Proof.
  destruct a as [ax ay az], b as [bx by_ bz]. cbn. intros -> -> ->. reflexivity.
Qed.

Lemma length_ZERO : Vector3.length ZERO = 0.
Proof.
  unfold Vector3.length. vec_simpl.
  replace (0 * 0 + 0 * 0 + 0 * 0) with 0 by ring. apply sqrt_0.
Qed.

Lemma normalize_ZERO : Vector3.normalize ZERO = ZERO.
Proof.
  unfold Vector3.normalize. apply vec_ext; vec_simpl; ring.
Qed.

Lemma multiplyScalar_0 v : Vector3.multiplyScalar v 0 = ZERO.
Proof. apply vec_ext; vec_simpl; ring. Qed.

Lemma multiplyScalar_ZERO k : Vector3.multiplyScalar ZERO k = ZERO.
Proof. apply vec_ext; vec_simpl; ring. Qed.

Lemma negate_ZERO : Vector3.negate ZERO = ZERO.
Proof. apply vec_ext; vec_simpl; ring. Qed.

Lemma roundToZero_with_ZERO epsilon : roundToZero_with ZERO epsilon = ZERO.
Proof.
  unfold roundToZero_with. vec_simpl. rewrite snap_0. reflexivity.
Qed.

Lemma clamp_0_0_1 : clamp 0 0 1 = 0.
Proof.
  unfold clamp, Rmax, Rmin.
  destruct (Rle_dec 1 0); destruct (Rle_dec 0 _); lra.
Qed.

Lemma easeOutCirc_1 : easeOutCirc 1 = 1.
Proof.
  unfold easeOutCirc. replace (1 - (1 - 1) * (1 - 1)) with 1 by ring. apply sqrt_1.
Qed.

Lemma length_zero_inv v : Vector3.length v = 0 -> v = ZERO.
Proof.
  unfold Vector3.length, Vector3.lengthSq. intros Hs.
  pose proof (Rle_0_sqr (Vector3.x v)) as Hx.
  pose proof (Rle_0_sqr (Vector3.y v)) as Hy.
  pose proof (Rle_0_sqr (Vector3.z v)) as Hz.
  unfold Rsqr in *.
  apply sqrt_eq_0 in Hs; [|lra].
  apply vec_ext; vec_simpl; nra.
Qed.

Section Rest.
Context `{D : Defs} `{W : World}.

Lemma isZero_0 : 0 < isZero_epsilon -> isZero 0 = true.
Proof.
  intros He. unfold isZero. apply lt_spec. rewrite Rabs_R0. exact He.
Qed.

Lemma roundToZero_ZERO : roundToZero ZERO = ZERO.
Proof. apply roundToZero_with_ZERO. Qed.

(** The tick-start readings of a model at rest. *)

Lemma speedOf_basis this : speedOf (basis this) = speedOf this.
Proof. reflexivity. Qed.

Lemma speedOf_rest this : velocity this = ZERO -> speedOf this = 0.
Proof. intros Hv. unfold speedOf. rewrite Hv. apply length_ZERO. Qed.

Lemma aoa_rest this :
  velocity this = ZERO -> snd (angleOfAttack (basis this)) = PI / 2.
Proof.
  intros Hv. unfold angleOfAttack, basis. proj_simpl. rewrite Hv, normalize_ZERO.
  set (r := Vector3.applyQuaternion RIGHT _).
  set (f := Vector3.applyQuaternion FORWARD _).
  assert (Hp : Vector3.projectOnPlane ZERO r = ZERO).
  { unfold Vector3.projectOnPlane, Vector3.projectOnVector.
    destruct (Vector3.lengthSq r =? 0).
    - apply vec_ext; vec_simpl; ring.
    - apply vec_ext; vec_simpl; unfold Rdiv; ring. }
  rewrite Hp.
  assert (Ha : Vector3.angleTo ZERO f = PI / 2).
  { unfold Vector3.angleTo.
    assert (E : sqrt (Vector3.lengthSq ZERO * Vector3.lengthSq f) = 0).
    { vec_simpl. replace ((0 * 0 + 0 * 0 + 0 * 0) * _) with 0 by ring.
      apply sqrt_0. }
    rewrite E.
    assert (E0 : (0 =? 0) = true) by (apply eq_spec; reflexivity).
    rewrite E0. reflexivity. }
  rewrite Ha.
  assert (Hd : (Vector3.dot (Vector3.cross ZERO f) r >? 0) = false).
  { apply gt_false. vec_simpl. right. ring. }
  rewrite Hd. ring.
Qed.

(** ** After the controls *)

Ltac frame_steered :=
  unfold steered, controls;
  rewrite pointDown_shape; unfold requaternion; proj_simpl;
  rewrite autoYaw_shape; unfold requaternion; proj_simpl;
  rewrite yawControl_shape; unfold requaternion; proj_simpl;
  rewrite pitchControl_shape; unfold requaternion; proj_simpl;
  rewrite rollControl_shape; unfold requaternion; proj_simpl;
  unfold prepared, angleOfAttack, basis; proj_simpl.

Lemma forward_steered delta this : forward (steered delta this) = forwardOf this.
Proof. frame_steered. reflexivity. Qed.

Lemma right_steered delta this : right (steered delta this) = rightOf this.
Proof. frame_steered. reflexivity. Qed.

Lemma velocityUnit_steered delta this :
  velocityUnit (steered delta this) = Vector3.normalize (velocity this).
Proof. frame_steered. reflexivity. Qed.

Lemma velocity_steered delta this : velocity (steered delta this) = velocity this.
Proof. frame_steered. reflexivity. Qed.

Lemma throttle_steered delta this : throttle (steered delta this) = throttle this.
Proof. frame_steered. reflexivity. Qed.

Lemma landed_steered delta this : landed (steered delta this) = landed this.
Proof. frame_steered. reflexivity. Qed.

(** ** The forces on a model at rest *)

Lemma velocityRotation_still delta speed this :
  isZero speed = true -> velocityRotation delta speed this = this.
Proof. intros Hz. unfold velocityRotation. rewrite Hz. reflexivity. Qed.

Lemma powered_eq delta this :
  powered delta this
  = allForces
      (velocityRotation delta (speedOf this)
         (weightForce (speedOf this)
            (lift (airDensityOf (basis this)) (speedOf this)
               (snd (angleOfAttack (basis this)))
               (dragForce (airDensityOf (basis this)) (speedOf this)
                  (snd (angleOfAttack (basis this)))
                  (thrustForce (airDensityOf (basis this)) (steered delta this)))))).
Proof. reflexivity. Qed.

Lemma weightDownFactor_rest (k : R) :
  - easeOutCirc (1.0 - clamp (0 / 256 * k) 0 1) = -1.
Proof.
  replace (0 / 256 * k) with 0 by (unfold Rdiv; ring).
  rewrite clamp_0_0_1. replace (1.0 - 0) with 1 by lra.
  rewrite easeOutCirc_1. reflexivity.
Qed.

Lemma forces_powered_still delta this :
  velocity this = ZERO -> 0 < isZero_epsilon ->
  forces (powered delta this) = Vector3.add (thrustOf this) (restWeight this).
Proof.
  intros Hv He.
  rewrite powered_eq, (speedOf_rest this Hv).
  rewrite (velocityRotation_still _ _ _ (isZero_0 He)).
  unfold allForces, weightForce, lift, dragForce, thrustForce. proj_simpl.
  rewrite forward_steered, right_steered, velocityUnit_steered, throttle_steered.
  rewrite Hv, normalize_ZERO, negate_ZERO, multiplyScalar_ZERO, roundToZero_ZERO.
  rewrite weightDownFactor_rest.
  unfold restWeight, thrustOf.
  change (airDensityOf (basis this)) with (airDensityOf this).
  set (t := roundToZero _).
  apply vec_ext; vec_simpl; ring.
Qed.

Lemma thrustOf_idle this : throttle this = 0 -> thrustOf this = ZERO.
Proof.
  intros Ht. unfold thrustOf. rewrite Ht.
  replace (airDensityOf this * MAX_THRUST * 0 * DRY_MASS) with 0 by ring.
  rewrite multiplyScalar_0. apply roundToZero_ZERO.
Qed.

Lemma forces_powered_rest delta this :
  velocity this = ZERO -> throttle this = 0 -> 0 < isZero_epsilon ->
  forces (powered delta this) = restWeight this.
Proof.
  intros Hv Ht He.
  rewrite (forces_powered_still delta this Hv He), (thrustOf_idle this Ht).
  apply vec_ext; vec_simpl; ring.
Qed.

Lemma velocity_powered_rest delta this :
  velocity this = ZERO -> 0 < isZero_epsilon ->
  velocity (powered delta this) = ZERO.
Proof.
  intros Hv He.
  rewrite powered_eq, (speedOf_rest this Hv).
  rewrite (velocityRotation_still _ _ _ (isZero_0 He)).
  unfold allForces, weightForce, lift, dragForce, thrustForce. proj_simpl.
  rewrite velocity_steered. exact Hv.
Qed.

Lemma landed_powered delta this : landed (powered delta this) = landed this.
Proof.
  rewrite powered_eq. unfold allForces. proj_simpl.
  rewrite velocityRotation_shape. proj_simpl.
  unfold weightForce, lift, dragForce, thrustForce. proj_simpl.
  apply landed_steered.
Qed.

Lemma throttle_powered delta this : throttle (powered delta this) = throttle this.
Proof.
  rewrite powered_eq. unfold allForces. proj_simpl.
  rewrite velocityRotation_shape. proj_simpl.
  unfold weightForce, lift, dragForce, thrustForce. proj_simpl.
  apply throttle_steered.
Qed.
End Rest.

Section Settle.
Context `{D : Defs} `{W : World}.

(** ** Static friction *)

Lemma snap_small epsilon c : Rabs c < epsilon -> snap epsilon c = 0.
Proof. intros Hc. unfold snap. apply lt_spec in Hc. rewrite Hc. reflexivity. Qed.

Lemma snap_large epsilon c : epsilon <= Rabs c -> snap epsilon c = c.
Proof. intros Hc. unfold snap. apply lt_false in Hc. rewrite Hc. reflexivity. Qed.

(** A force cancelled by its rounded opposite leaves no acceleration. *)
Lemma cancel_snap epsilon a :
  snap epsilon ((a + snap epsilon (- a)) * (1 / DRY_MASS)) = 0.
Proof.
  unfold DRY_MASS.
  destruct (Rlt_dec (Rabs (- a)) epsilon) as [Hs|Hl].
  - rewrite (snap_small _ _ Hs). apply snap_small.
    rewrite Rabs_Ropp in Hs.
    apply Rabs_def2 in Hs. apply Rabs_def1; lra.
  - rewrite (snap_large epsilon (- a)) by lra.
    replace ((a + - a) * (1 / 20000)) with 0 by lra. apply snap_0.
Qed.

Lemma frictionForce_static speed this :
  landed this = true -> isZero speed = true ->
  Vector3.length (Vector3.setY (forces this) 0)
  < GROUND_FRICTION_STATIC * (DRY_MASS * GRAVITY) ->
  friction (frictionForce speed this)
  = roundToZero (Vector3.negate (Vector3.setY (forces this) 0)).
Proof.
  intros Hl Hz Hs. unfold frictionForce. rewrite Hl. proj_simpl.
  apply lt_spec in Hs. rewrite Hz, Hs. reflexivity.
Qed.

Lemma frictionForce_frame speed this :
  let r := frictionForce speed this in
  landed r = landed this /\ velocity r = velocity this /\ forces r = forces this
  /\ obj r = obj this /\ throttle r = throttle this.
Proof. cbv zeta. rewrite frictionForce_shape. proj_simpl. repeat split. Qed.

(** The velocity after the timestep of a landed model that started at
    rest below the static threshold. *)
Lemma timestep_static delta speed this :
  landed this = true -> isZero speed = true -> velocity this = ZERO ->
  0 <= delta ->
  Vector3.length (Vector3.setY (forces this) 0)
  < GROUND_FRICTION_STATIC * (DRY_MASS * GRAVITY) ->
  Vector3.y (forces this) <= 0 ->
  velocity (timestep delta (frictionForce speed this)) = ZERO.
Proof.
  intros Hl Hz Hv Hd Hs Hy.
  destruct (frictionForce_frame speed this) as (Fl & Fv & Ff & _).
  rewrite velocity_timestep, Fl, Fv, Ff, Hl, Hv.
  rewrite (frictionForce_static _ _ Hl Hz Hs).
  unfold roundToZero, roundToZero_with. vec_simpl.
  rewrite !cancel_snap.
  replace (- 0) with 0 by ring. rewrite snap_0.
  set (ay := snap roundToZero_epsilon ((Vector3.y (forces this) + 0) * (1 / DRY_MASS))).
  assert (Hay : ay <= 0).
  { apply snap_nonpos. unfold DRY_MASS. lra. }
  cbn [andb].
  destruct (0 + ay * delta <? 0) eqn:E.
  - apply vec_ext; vec_simpl; ring.
  - apply lt_false in E. apply vec_ext; vec_simpl; nra.
Qed.

Lemma apply_still delta this :
  velocity this = ZERO ->
  let r := applyVelocity delta this in
  velocity r = ZERO /\ Object3D.position (obj r) = Object3D.position (obj this).
Proof.
  intros Hv r.
  assert (Hr : velocity r = ZERO).
  { unfold r. rewrite velocity_apply, Hv. apply roundToZero_with_ZERO. }
  split; [exact Hr|].
  unfold r. rewrite position_apply. fold r. rewrite Hr.
  apply vec_ext; vec_simpl; ring.
Qed.
End Settle.

Section Landed.
Context `{D : Defs} `{W : World}.

(** ** The weight at rest *)

Lemma restWeight_down this : Vector3.y (restWeight this) <= 0.
Proof.
  unfold restWeight. vec_simpl. unfold DRY_MASS, GRAVITY.
  set (fy := Vector3.y (forwardOf this)). nra.
Qed.

Lemma restWeight_horizontal this :
  Vector3.length (Vector3.setY (restWeight this) 0)
  = Rabs (Vector3.y (forwardOf this))
    * Vector3.length (Vector3.setY (forwardOf this) 0) * (DRY_MASS * GRAVITY).
Proof.
  unfold restWeight, Vector3.length. vec_simpl.
  set (fx := Vector3.x (forwardOf this)).
  set (fy := Vector3.y (forwardOf this)).
  set (fz := Vector3.z (forwardOf this)).
  set (k := DRY_MASS * GRAVITY).
  assert (Hk : 0 < k) by (unfold k, DRY_MASS, GRAVITY; lra).
  replace ((0 * -1 + fx * - fy) * k * ((0 * -1 + fx * - fy) * k) + 0 * 0
           + (0 * -1 + fz * - fy) * k * ((0 * -1 + fz * - fy) * k))
    with (((fy * k) * (fy * k)) * (fx * fx + 0 * 0 + fz * fz)) by ring.
  rewrite sqrt_mult_alt by nra.
  replace (fy * k * (fy * k)) with (Rsqr (fy * k)) by (unfold Rsqr; ring).
  rewrite sqrt_Rsqr_abs, Rabs_mult, (Rabs_pos_eq k) by lra.
  ring.
Qed.

Lemma restWeight_static this :
  Rabs (Vector3.y (forwardOf this))
  * Vector3.length (Vector3.setY (forwardOf this) 0) < GROUND_FRICTION_STATIC ->
  Vector3.length (Vector3.setY (restWeight this) 0)
  < GROUND_FRICTION_STATIC * (DRY_MASS * GRAVITY).
Proof.
  intros Hs. rewrite restWeight_horizontal.
  assert (Hk : 0 < DRY_MASS * GRAVITY) by (unfold DRY_MASS, GRAVITY; lra).
  apply Rmult_lt_compat_r; assumption.
Qed.

(** ** A landed model at rest, up to the position update *)

Lemma advance_rest_landed delta this :
  0 < isZero_epsilon -> 0 <= delta ->
  velocity this = ZERO -> throttle this = 0 -> landed this = true ->
  Rabs (Vector3.y (forwardOf this))
  * Vector3.length (Vector3.setY (forwardOf this) 0) < GROUND_FRICTION_STATIC ->
  velocity (advance delta this) = ZERO
  /\ Object3D.position (obj (advance delta this)) = Object3D.position (obj this)
  /\ Object3D.quaternion (obj (advance delta this))
     = Object3D.quaternion (obj (steered delta this)).
Proof.
  intros He Hd Hv Ht Hl Hs.
  assert (Hz : isZero (speedOf (basis this)) = true).
  { rewrite speedOf_basis, (speedOf_rest this Hv). apply isZero_0, He. }
  assert (Hvel : velocity (timestep delta (forced delta this)) = ZERO).
  { unfold forced. apply timestep_static.
    - rewrite landed_powered. exact Hl.
    - exact Hz.
    - apply velocity_powered_rest; assumption.
    - exact Hd.
    - rewrite forces_powered_rest by assumption. apply restWeight_static, Hs.
    - rewrite forces_powered_rest by assumption. apply restWeight_down. }
  rewrite advance_eq.
  destruct (apply_still delta _ Hvel) as [Hv' Hp'].
  split; [exact Hv'|]. split.
  - rewrite Hp', obj_timestep. apply position_forced.
  - rewrite quaternion_apply, obj_timestep. apply quaternion_forced.
Qed.

(** ** The controls of a landed model without input *)

Lemma pitchControl_idle delta this :
  isZero (pitch this) = true -> pitchControl delta this = this.
Proof. intros Hz. unfold pitchControl. rewrite Hz. reflexivity. Qed.

Lemma yawControl_idle delta speed this :
  isZero (yaw this) = true -> yawControl delta speed this = this.
Proof. intros Hz. unfold yawControl. rewrite Hz. reflexivity. Qed.

Lemma pointDown_landed delta this :
  landed this = true -> pointDown delta this = this.
Proof. intros Hl. unfold pointDown. rewrite Hl, andb_false_r. reflexivity. Qed.

Lemma rotateOnWorldAxis_0 o axis : Object3D.rotateOnWorldAxis o axis 0 = o.
Proof.
  unfold Object3D.rotateOnWorldAxis, Object3D.set_quaternion, setFromAxisAngle,
    Quaternion.premultiply, Quaternion.multiplyQuaternions.
  replace (0 / 2) with 0 by lra. rewrite sin_0, cos_0.
  destruct o as [[qx qy qz qw] p]. cbn. f_equal. f_equal; ring.
Qed.

Lemma autoYawAngle_level delta prjForward :
  autoYawAngle delta prjForward ZERO = 0.
Proof. unfold autoYawAngle. rewrite length_ZERO. ring. Qed.

Lemma autoYaw_level delta this :
  prjUpOf this = ZERO ->
  Object3D.quaternion (obj (autoYaw delta this)) = Object3D.quaternion (obj this).
Proof.
  intros Hp. unfold autoYaw.
  destruct (_ && _); [|reflexivity].
  proj_simpl. rewrite Hp, autoYawAngle_level, rotateOnWorldAxis_0.
  reflexivity.
Qed.

Lemma steered_idle delta this :
  0 < isZero_epsilon ->
  landed this = true -> pitch this = 0 -> yaw this = 0 ->
  prjUpOf (basis this) = ZERO ->
  Object3D.quaternion (obj (steered delta this)) = Object3D.quaternion (obj this).
Proof.
  intros He Hl Hp Hy Hu.
  rewrite steered_eq.
  rewrite (rollControl_landed delta (prepared this)) by exact Hl.
  rewrite pitchControl_idle
    by (change (pitch (prepared this)) with (pitch this); rewrite Hp; apply isZero_0, He).
  rewrite yawControl_idle
    by (change (yaw (prepared this)) with (yaw this); rewrite Hy; apply isZero_0, He).
  rewrite pointDown_shape. unfold requaternion. proj_simpl.
  rewrite pointDown_landed
    by (rewrite autoYaw_shape; unfold requaternion; proj_simpl; exact Hl).
  rewrite autoYaw_level by exact Hu.
  reflexivity.
Qed.
End Landed.

Section GroundStick.
Context `{D : Defs} `{W : World}.

Lemma roll_step delta this : roll (step delta this) = roll this.
Proof.
  rewrite step_eq; unfold wrapAround; proj_simpl.
  rewrite avoidGroundCrash_shape; proj_simpl.
  rewrite advance_eq, apply_shape; proj_simpl.
  rewrite timestep_shape; proj_simpl. apply roll_forced.
Qed.

Lemma pitch_step delta this : pitch (step delta this) = pitch this.
Proof.
  rewrite step_eq; unfold wrapAround; proj_simpl.
  rewrite avoidGroundCrash_shape; proj_simpl.
  rewrite advance_eq, apply_shape; proj_simpl.
  rewrite timestep_shape; proj_simpl. apply pitch_forced.
Qed.

Lemma yaw_step delta this : yaw (step delta this) = yaw this.
Proof.
  rewrite step_eq; unfold wrapAround; proj_simpl.
  rewrite avoidGroundCrash_shape; proj_simpl.
  rewrite advance_eq, apply_shape; proj_simpl.
  rewrite timestep_shape; proj_simpl. apply yaw_forced.
Qed.

Lemma throttle_step delta this : throttle (step delta this) = throttle this.
Proof.
  rewrite step_eq; unfold wrapAround; proj_simpl.
  rewrite avoidGroundCrash_shape; proj_simpl.
  rewrite advance_eq, apply_shape; proj_simpl.
  rewrite timestep_shape; proj_simpl. apply throttle_forced.
Qed.

Lemma obj_ext (a b : Object3D.t) :
  Object3D.quaternion a = Object3D.quaternion b ->
  Object3D.position a = Object3D.position b -> a = b.
Proof. destruct a, b. cbn. intros -> ->. reflexivity. Qed.

(** One tick of a settled model at rest. *)
Lemma step_rest delta this :
  0 < isZero_epsilon -> 0 <= delta -> atRest this -> settled this ->
  velocity (step delta this) = ZERO
  /\ landed (step delta this) = true
  /\ obj (step delta this) = obj this.
Proof.
  intros He Hd (Hv & Ht & Hr & Hp & Hy & Hl & Ha) (Hs & Hu & Hx & Hz).
  destruct (advance_rest_landed delta this He Hd Hv Ht Hl Hs) as (Av & Ap & Aq).
  rewrite (steered_idle delta this He Hl Hp Hy Hu) in Aq.
  assert (Aa : altitude (advance delta this) = PLANE_DISTANCE_TO_GROUND).
  { unfold altitude. rewrite Ap. exact Ha. }
  rewrite step_eq, avoidGroundCrash_not_below by lra.
  rewrite velocity_wrapAround, landed_wrapAround.
  split; [exact Av|]. split.
  - rewrite landed_advance, Aa.
    assert (E : (PLANE_DISTANCE_TO_GROUND >? PLANE_DISTANCE_TO_GROUND) = false)
      by (apply gt_false; lra).
    rewrite E. exact Hl.
  - apply obj_ext.
    + rewrite quaternion_wrapAround. exact Aq.
    + unfold wrapAround. proj_simpl. rewrite Ap.
      rewrite !wrap_inside by assumption. reflexivity.
Qed.

Lemma settled_obj this r : obj r = obj this -> settled this -> settled r.
Proof.
  intros Ho. unfold settled, forwardOf, prjUpOf, basis. proj_simpl.
  rewrite Ho. tauto.
Qed.

Lemma atRest_step delta this :
  0 < isZero_epsilon -> 0 <= delta -> atRest this -> settled this ->
  atRest (step delta this).
Proof.
  intros He Hd Hr Hs.
  destruct (step_rest delta this He Hd Hr Hs) as (Sv & Sl & So).
  destruct Hr as (Hv & Ht & Hr & Hp & Hy & Hl & Ha).
  unfold atRest.
  rewrite throttle_step, roll_step, pitch_step, yaw_step.
  unfold altitude. rewrite So. repeat split; assumption.
Qed.

Lemma steps_rest delta n this :
  0 < isZero_epsilon -> 0 <= delta -> atRest this -> settled this ->
  atRest (steps delta n this) /\ obj (steps delta n this) = obj this.
Proof.
  intros He Hd Hr Hs. induction n as [|n [IHr IHo]].
  - split; [exact Hr|reflexivity].
  - change (steps delta (S n) this) with (step delta (steps delta n this)).
    pose proof (settled_obj _ _ IHo Hs) as Hs'.
    split.
    + apply atRest_step; assumption.
    + destruct (step_rest delta _ He Hd IHr Hs') as (_ & _ & So).
      rewrite So. exact IHo.
Qed.

(** C4, as the code has it.  Starting a tick at rest ([atRest]: landed,
    velocity (0,0,0), no throttle, no roll, pitch or yaw input, altitude
    equal to the ground clearance) in a settled attitude and place
    ([settled]: the pull of the weight along the nose below the static
    friction, bank indicator [prjUp] zero, position inside the world),
    with [delta >= 0] and a near-zero test that accepts [0]: after [n]
    calls to [step] the velocity is still (0,0,0), [landed] is still
    [true], and position and orientation are unchanged. *)
Theorem ground_stick (delta : R) (n : nat) (this : ArcadeFlightModel) :
  0 < isZero_epsilon -> 0 <= delta -> atRest this -> settled this ->
  let r := steps delta n this in
  velocity r = ZERO
  /\ landed r = true
  /\ Object3D.position (obj r) = Object3D.position (obj this)
  /\ Object3D.quaternion (obj r) = Object3D.quaternion (obj this).
Proof.
  intros He Hd Hr Hs r.
  destruct (steps_rest delta n this He Hd Hr Hs) as [(Hv & _ & _ & _ & _ & Hl & _) Ho].
  fold r in Hv, Hl, Ho. rewrite Ho. repeat split; assumption.
Qed.

(** ** The stall index of a stationary model *)

Lemma stall_powered delta this :
  stall (powered delta this)
  = - clamp (liftFactorOf (airDensityOf (basis this)) (speedOf this) (steered delta this)
             / minLiftFactor
             + aoaLiftOf (snd (angleOfAttack (basis this)))
               * (1.0 - Rabs (Vector3.y (rightOf this))) - 1.0) (-1.0) 1.0.
Proof.
  rewrite powered_eq. unfold allForces. proj_simpl.
  rewrite velocityRotation_shape. proj_simpl.
  unfold weightForce, lift. proj_simpl.
  unfold dragForce, thrustForce, liftFactorOf. proj_simpl.
  rewrite right_steered. reflexivity.
Qed.

Lemma aoaLiftOf_right_angle : aoaLiftOf (PI / 2) = 0.
Proof.
  unfold aoaLiftOf. pose proof PI_RGT_0 as Hpi.
  assert (E1 : (PI / 2 <? PI / 8.0) = false) by (apply lt_false; lra).
  assert (E2 : (PI / 2 >? 7 * PI / 8.0) = false) by (apply gt_false; lra).
  rewrite E1, E2. cbn [orb].
  replace (2.0 * (PI / 2)) with PI by lra. rewrite sin_PI. ring.
Qed.

Lemma stall_powered_stationary delta this :
  velocity this = ZERO -> stall (powered delta this) = 1.
Proof.
  intros Hv. rewrite stall_powered, (aoa_rest this Hv), aoaLiftOf_right_angle.
  rewrite (speedOf_rest this Hv). unfold liftFactorOf.
  match goal with
  | |- context [?l / minLiftFactor] =>
      replace l with 0 by (unfold Rdiv; lra)
  end.
  unfold Rdiv at 1. rewrite Rmult_0_l.
  match goal with
  | |- - clamp ?x _ _ = _ => replace x with (-1) by lra
  end.
  unfold clamp, Rmax, Rmin.
  destruct (Rle_dec 1.0 (-1)); destruct (Rle_dec (-1.0) _); lra.
Qed.

Lemma stall_step_not_below delta this :
  PLANE_DISTANCE_TO_GROUND <= altitude (advance delta this) ->
  stall (step delta this) = stall (powered delta this).
Proof.
  intros Hh. rewrite step_eq, avoidGroundCrash_not_below by exact Hh.
  unfold wrapAround. proj_simpl. rewrite stall_advance.
  unfold forced. rewrite frictionForce_shape. proj_simpl. reflexivity.
Qed.

(** C9.  For every tick that begins with speed exactly [0] and in
    which the ground-clamp branch does not fire (the altitude after the
    position update is not below the ground clearance), the stall value
    after the tick is at least 0.8: the lift factor vanishes at zero
    speed. *)
Theorem stationary_stall (delta : R) (this : ArcadeFlightModel) :
  Vector3.length (velocity this) = 0 ->
  PLANE_DISTANCE_TO_GROUND <= altitude (advance delta this) ->
  0.8 <= stall (step delta this).
Proof.
  intros Hs Hh. apply length_zero_inv in Hs.
  rewrite (stall_step_not_below _ _ Hh), (stall_powered_stationary _ _ Hs). lra.
Qed.
End GroundStick.

Section Tick.
Context `{D : Defs} `{W : World}.

(** ** More about the position update and the ground *)

Lemma velocity_avoidGroundCrash this :
  velocity (avoidGroundCrash this)
  = if altitude this <? PLANE_DISTANCE_TO_GROUND
    then Vector3.setY (velocity this) 0 else velocity this.
Proof.
  unfold avoidGroundCrash, altitude.
  destruct (_ <? PLANE_DISTANCE_TO_GROUND); [|reflexivity].
  proj_simpl.
  match goal with |- context [if ?c then _ else _] => destruct c end; reflexivity.
Qed.

Lemma throttle_advance delta this : throttle (advance delta this) = throttle this.
Proof.
  rewrite advance_eq, apply_shape. proj_simpl.
  rewrite throttle_timestep. apply throttle_forced.
Qed.

Lemma velocity_advance delta this :
  velocity (advance delta this)
  = roundToZero_with (velocity (timestep delta (forced delta this)))
      (applyEpsilon this).
Proof.
  rewrite advance_eq, velocity_apply.
  unfold applyEpsilon. rewrite throttle_timestep, throttle_forced. reflexivity.
Qed.

Lemma position_advance delta this :
  Object3D.position (obj (advance delta this))
  = Vector3.addScaledVector (Object3D.position (obj this))
      (velocity (advance delta this)) delta.
Proof.
  rewrite advance_eq, position_apply, obj_timestep, position_forced. reflexivity.
Qed.

(** X1.  A tick of non-negative length that starts landed never ends
    lower than it started: the timestep clears a negative [velocity.y] of
    a landed model (lines 179-181), so the position update cannot move it
    down, and the ground clamp only raises. *)
Theorem landed_never_sinks (delta : R) (this : ArcadeFlightModel) :
  landed this = true -> 0 <= delta ->
  altitude this <= altitude (step delta this).
Proof.
  intros Hl Hd.
  pose proof (velocity_advance_landed delta this Hl) as Hv.
  pose proof (altitude_advance delta this) as Ha.
  rewrite step_eq, altitude_wrapAround.
  destruct (Rlt_dec (altitude (advance delta this)) PLANE_DISTANCE_TO_GROUND)
    as [Hlow|Hhigh].
  - destruct (avoidGroundCrash_below _ Hlow) as (Hc & _). rewrite Hc. nra.
  - rewrite avoidGroundCrash_not_below by lra. nra.
Qed.

Lemma snap_dichotomy epsilon c :
  snap epsilon c = 0 \/ epsilon <= Rabs (snap epsilon c).
Proof.
  unfold snap. destruct (Rabs c <? epsilon) eqn:E; [left; reflexivity|].
  right. apply lt_false in E. exact E.
Qed.

(** X2.  After every tick each component of the velocity is either
    exactly [0] or at least the tolerance of line 184 in magnitude ([0.01]
    with throttle, [0.1] without): [roundToZero] changes [this.velocity]
    itself, not a copy, and nothing after it writes a non-zero
    component. *)
Theorem no_residual_creep (delta : R) (this : ArcadeFlightModel) :
  let v := velocity (step delta this) in
  (Vector3.x v = 0 \/ applyEpsilon this <= Rabs (Vector3.x v))
  /\ (Vector3.y v = 0 \/ applyEpsilon this <= Rabs (Vector3.y v))
  /\ (Vector3.z v = 0 \/ applyEpsilon this <= Rabs (Vector3.z v)).
Proof.
  cbv zeta. rewrite step_eq, velocity_wrapAround, velocity_avoidGroundCrash.
  rewrite velocity_advance. unfold roundToZero_with.
  destruct (_ <? PLANE_DISTANCE_TO_GROUND); cbn [Vector3.x Vector3.y Vector3.z Vector3.setY];
    repeat split; try apply snap_dichotomy; left; reflexivity.
Qed.

(** X3.  In a tick that neither hits the ground nor leaves the world,
    the position moves by exactly the velocity the tick ends with times
    [delta]: the position update uses the velocity after the timestep and
    after the rounding of line 184. *)
Theorem displacement (delta : R) (this : ArcadeFlightModel) :
  let updated := advance delta this in
  PLANE_DISTANCE_TO_GROUND <= altitude updated ->
  - terrainHalfSize <= Vector3.x (Object3D.position (obj updated)) <= terrainHalfSize ->
  - terrainHalfSize <= Vector3.z (Object3D.position (obj updated)) <= terrainHalfSize ->
  Object3D.position (obj (step delta this))
  = Vector3.addScaledVector (Object3D.position (obj this))
      (velocity (step delta this)) delta.
Proof.
  intros updated Ha Hx Hz.
  rewrite step_eq, velocity_wrapAround. fold updated.
  rewrite avoidGroundCrash_not_below by exact Ha.
  unfold wrapAround. proj_simpl.
  rewrite !wrap_inside by assumption.
  unfold updated. rewrite <- position_advance. reflexivity.
Qed.

(** X4.  The result of a tick is a fixed point of the two last blocks
    (for a world half-size [>= 0]): running the ground clamp or the world
    wrap again on it changes nothing, no field of the model. *)
Theorem step_is_grounded_and_wrapped (delta : R) (this : ArcadeFlightModel) :
  0 <= terrainHalfSize ->
  avoidGroundCrash (step delta this) = step delta this
  /\ wrapAround (step delta this) = step delta this.
Proof.
  intros HH. split.
  - apply avoidGroundCrash_not_below, step_floor.
  - rewrite step_eq. set (g := avoidGroundCrash _).
    unfold wrapAround. proj_simpl. cbn [Vector3.x Vector3.y Vector3.z].
    rewrite !(wrap_inside (wrap _)) by (apply wrap_range; exact HH).
    reflexivity.
Qed.
End Tick.

(** ** Signs *)

Lemma pow_nonneg (b e : R) : 0 <= JS.pow b e.
Proof.
  unfold JS.pow.
  destruct (Rlt_dec 0 b); [unfold Rpower; left; apply exp_pos|].
  destruct (Req_dec_T b 0); [destruct (Rlt_dec 0 e)|]; lra.
Qed.

Lemma or_else_pos (v : Vector3.t) : 0 < JS.or_else (Vector3.length v) 1.
Proof.
  unfold JS.or_else. destruct (Req_dec_T _ 0) as [E|E]; [lra|].
  pose proof (sqrt_pos (Vector3.lengthSq v)) as Hs. unfold Vector3.length in *. lra.
Qed.

Lemma snap_opposes (epsilon c a : R) : c * a <= 0 -> snap epsilon c * a <= 0.
Proof.
  intros Hc. destruct (snap_cases epsilon c) as [E|E]; rewrite E; lra.
Qed.

Lemma against (a i p : R) : 0 <= i -> 0 <= p -> - (a * i) * p * a <= 0.
Proof.
  intros Hi Hp. pose proof (Rle_0_sqr a) as Ha. unfold Rsqr in Ha.
  pose proof (Rmult_le_pos _ _ Hi Hp) as Hip.
  pose proof (Rmult_le_pos _ _ Ha Hip). nra.
Qed.

Lemma inv_or_else_pos (v : Vector3.t) : 0 <= 1 / JS.or_else (Vector3.length v) 1.
Proof.
  pose proof (or_else_pos v) as Hk. unfold Rdiv. rewrite Rmult_1_l.
  left. apply Rinv_0_lt_compat, Hk.
Qed.

Section Forces.
Context `{D : Defs} `{W : World}.

Ltac to_forced :=
  rewrite step_eq; unfold wrapAround; proj_simpl;
  rewrite avoidGroundCrash_shape; proj_simpl;
  rewrite advance_eq, apply_shape; proj_simpl;
  rewrite timestep_shape; proj_simpl.

Ltac to_powered :=
  to_forced; unfold forced; rewrite frictionForce_shape; proj_simpl.

Lemma drag_step delta this : drag (step delta this) = drag (powered delta this).
Proof. to_powered. reflexivity. Qed.

Lemma weight_step delta this : weight (step delta this) = weight (powered delta this).
Proof. to_powered. reflexivity. Qed.

Lemma friction_step delta this :
  friction (step delta this) = friction (forced delta this).
Proof. to_forced. reflexivity. Qed.

Lemma drag_powered delta this :
  drag (powered delta this)
  = roundToZero
      (Vector3.multiplyScalar
         (Vector3.negate (Vector3.normalize (velocity this)))
         (JS.pow (dragBaseOf this) (dragExponentOf this))).
Proof.
  rewrite powered_eq. unfold allForces. proj_simpl.
  rewrite velocityRotation_shape. proj_simpl.
  unfold weightForce, lift, dragForce. proj_simpl.
  unfold thrustForce. proj_simpl.
  rewrite forward_steered, right_steered, velocityUnit_steered.
  reflexivity.
Qed.

(** X5.  The drag of every tick never points along the velocity the
    tick started with: their dot product is at most [0], whatever the
    attitude, the speed and the two arguments of [Math.pow]. *)
Theorem drag_dissipative (delta : R) (this : ArcadeFlightModel) :
  Vector3.dot (drag (step delta this)) (velocity this) <= 0.
Proof.
  rewrite drag_step, drag_powered.
  set (p := JS.pow _ _). pose proof (pow_nonneg (dragBaseOf this) (dragExponentOf this)) as Hp.
  fold p in Hp.
  pose proof (inv_or_else_pos (velocity this)) as Hi.
  unfold roundToZero, roundToZero_with, Vector3.normalize. vec_simpl.
  set (i := 1 / JS.or_else _ 1) in *.
  pose proof (snap_opposes roundToZero_epsilon _ _
                (against (Vector3.x (velocity this)) i p Hi Hp)).
  pose proof (snap_opposes roundToZero_epsilon _ _
                (against (Vector3.y (velocity this)) i p Hi Hp)).
  pose proof (snap_opposes roundToZero_epsilon _ _
                (against (Vector3.z (velocity this)) i p Hi Hp)).
  lra.
Qed.

(** X6.  The weight vector of every tick has a vertical component at
    most [0]: neither the lift allowance [weightDownFactor] nor the pull
    along the nose ever makes it point upwards. *)
Theorem weight_never_lifts (delta : R) (this : ArcadeFlightModel) :
  Vector3.y (weight (step delta this)) <= 0.
Proof.
  rewrite weight_step, powered_eq. unfold allForces. proj_simpl.
  rewrite velocityRotation_shape. proj_simpl.
  unfold weightForce. proj_simpl. unfold easeOutCirc. vec_simpl.
  match goal with |- context [sqrt ?a] => pose proof (sqrt_pos a) as Hs; set (e := sqrt a) in * end.
  set (fy := Vector3.y _).
  unfold DRY_MASS, GRAVITY. nra.
Qed.

(** X7.  The friction of every tick is horizontal (its [y] is exactly
    [0]), and it is the zero vector whenever the tick starts airborne. *)
Theorem friction_horizontal (delta : R) (this : ArcadeFlightModel) :
  Vector3.y (friction (step delta this)) = 0
  /\ (landed this = false -> friction (step delta this) = ZERO).
Proof.
  rewrite friction_step. unfold forced, frictionForce.
  rewrite landed_powered. destruct (landed this).
  - split; [|discriminate]. proj_simpl.
    match goal with |- context [if ?c then _ else _] => destruct c end;
      proj_simpl; unfold roundToZero, roundToZero_with, Vector3.normalize; vec_simpl.
    + replace (- 0) with 0 by ring. apply snap_0.
    + match goal with |- snap _ ?c = 0 => replace c with 0 by ring end. apply snap_0.
  - split; reflexivity.
Qed.

(** X8.  On the ground with a speed that is not near zero, the friction
    (the kinetic branch, line 169) never points along the velocity the
    tick started with: their dot product is at most [0]. *)
Theorem kinetic_friction_opposes (delta : R) (this : ArcadeFlightModel) :
  landed this = true -> isZero (speedOf this) = false ->
  Vector3.dot (friction (step delta this)) (velocity this) <= 0.
Proof.
  intros Hl Hz.
  rewrite friction_step. unfold forced, frictionForce.
  rewrite landed_powered, Hl, speedOf_basis, Hz. cbn [andb]. proj_simpl.
  assert (Hvu : velocityUnit (powered delta this) = Vector3.normalize (velocity this)).
  { rewrite powered_eq. unfold allForces. proj_simpl.
    rewrite velocityRotation_shape. proj_simpl.
    unfold weightForce, lift, dragForce, thrustForce. proj_simpl.
    apply velocityUnit_steered. }
  rewrite Hvu.
  pose proof (inv_or_else_pos (velocity this)) as Hi.
  unfold roundToZero, roundToZero_with, Vector3.normalize. vec_simpl.
  set (i := 1 / JS.or_else (Vector3.length (velocity this)) 1) in *.
  match goal with
  | |- context [1 / JS.or_else (Vector3.length ?w) 1] =>
      pose proof (inv_or_else_pos w) as Hj;
      set (j := 1 / JS.or_else (Vector3.length w) 1) in *
  end.
  set (k := GROUND_FRICTION_KINETIC * (DRY_MASS * GRAVITY)).
  assert (Hk : 0 <= k) by (unfold k, GROUND_FRICTION_KINETIC, DRY_MASS, GRAVITY; lra).
  pose proof (Rmult_le_pos _ _ Hj Hk) as Hjk.
  assert (Hx : - (Vector3.x (velocity this) * i) * j * k * Vector3.x (velocity this) <= 0).
  { pose proof (against (Vector3.x (velocity this)) i (j * k) Hi Hjk). lra. }
  assert (Hz' : - (Vector3.z (velocity this) * i) * j * k * Vector3.z (velocity this) <= 0).
  { pose proof (against (Vector3.z (velocity this)) i (j * k) Hi Hjk). lra. }
  pose proof (snap_opposes roundToZero_epsilon _ _ Hx).
  pose proof (snap_opposes roundToZero_epsilon _ _ Hz').
  replace (- 0 * j * k) with 0 by ring. rewrite snap_0. lra.
Qed.
End Forces.

(** ** The norm of the orientation *)

Ltac quat_simpl :=
  unfold Quaternion.multiply, Quaternion.premultiply, Quaternion.multiplyQuaternions,
    Quaternion.dot, setFromAxisAngle;
  cbn [Quaternion.x Quaternion.y Quaternion.z Quaternion.w
       Vector3.x Vector3.y Vector3.z].

Lemma dot_multiplyQuaternions (a b : Quaternion.t) :
  Quaternion.dot (Quaternion.multiplyQuaternions a b)
    (Quaternion.multiplyQuaternions a b)
  = Quaternion.dot a a * Quaternion.dot b b.
Proof. quat_simpl. ring. Qed.

Lemma dot_setFromAxisAngle (q : Quaternion.t) (axis : Vector3.t) (angle : R) :
  Quaternion.dot (setFromAxisAngle q axis angle) (setFromAxisAngle q axis angle)
  = 1 - (1 - Vector3.lengthSq axis) * (sin (angle / 2) * sin (angle / 2)).
Proof.
  quat_simpl. unfold Vector3.lengthSq.
  pose proof (sin2_cos2 (angle / 2)) as E. unfold Rsqr in E.
  set (s := sin (angle / 2)) in *. set (c := cos (angle / 2)) in *.
  replace (c * c) with (1 - s * s) by lra. ring.
Qed.

Lemma dot_rotateOnAxis (o : Object3D.t) (axis : Vector3.t) (angle : R) :
  Vector3.lengthSq axis = 1 ->
  Quaternion.dot (Object3D.quaternion (Object3D.rotateOnAxis o axis angle))
    (Object3D.quaternion (Object3D.rotateOnAxis o axis angle))
  = Quaternion.dot (Object3D.quaternion o) (Object3D.quaternion o).
Proof.
  intros Hu. unfold Object3D.rotateOnAxis, Object3D.set_quaternion, Quaternion.multiply.
  cbn [Object3D.quaternion].
  rewrite dot_multiplyQuaternions, dot_setFromAxisAngle, Hu. ring.
Qed.

Lemma dot_rotateOnWorldAxis (o : Object3D.t) (axis : Vector3.t) (angle : R) :
  Quaternion.dot (Object3D.quaternion (Object3D.rotateOnWorldAxis o axis angle))
    (Object3D.quaternion (Object3D.rotateOnWorldAxis o axis angle))
  = (1 - (1 - Vector3.lengthSq axis) * (sin (angle / 2) * sin (angle / 2)))
    * Quaternion.dot (Object3D.quaternion o) (Object3D.quaternion o).
Proof.
  unfold Object3D.rotateOnWorldAxis, Object3D.set_quaternion, Quaternion.premultiply.
  cbn [Object3D.quaternion].
  rewrite dot_multiplyQuaternions, dot_setFromAxisAngle. ring.
Qed.

Lemma lengthSq_normalize (v : Vector3.t) :
  Vector3.lengthSq v <> 0 -> Vector3.lengthSq (Vector3.normalize v) = 1.
Proof.
  intros Hv.
  assert (Hp : 0 <= Vector3.lengthSq v) by (unfold Vector3.lengthSq; nra).
  assert (Hl : Vector3.length v <> 0).
  { unfold Vector3.length. intros E. apply sqrt_eq_0 in E; [contradiction|exact Hp]. }
  unfold Vector3.normalize, JS.or_else.
  destruct (Req_dec_T (Vector3.length v) 0) as [E|_]; [contradiction|].
  pose proof (sqrt_sqrt _ Hp) as Hs. fold (Vector3.length v) in Hs.
  unfold Vector3.divideScalar, Vector3.multiplyScalar, Vector3.lengthSq in *.
  cbn [Vector3.x Vector3.y Vector3.z].
  set (l := Vector3.length v) in *.
  assert (Hi : l * (1 / l) = 1) by (field; exact Hl).
  set (i := 1 / l) in *.
  replace (Vector3.x v * i * (Vector3.x v * i) + Vector3.y v * i * (Vector3.y v * i)
           + Vector3.z v * i * (Vector3.z v * i))
    with ((Vector3.x v * Vector3.x v + Vector3.y v * Vector3.y v
           + Vector3.z v * Vector3.z v) * (i * i)) by ring.
  rewrite <- Hs. replace (l * l * (i * i)) with ((l * i) * (l * i)) by ring.
  rewrite Hi. ring.
Qed.

Lemma lengthSq_normalize_ZERO : Vector3.lengthSq (Vector3.normalize ZERO) = 0.
Proof. rewrite normalize_ZERO. unfold Vector3.lengthSq, ZERO. cbn. ring. Qed.

Section Orientation.
Context `{D : Defs} `{W : World}.

Lemma norm_rollControl delta this :
  orientationNormSq (rollControl delta this) = orientationNormSq this.
Proof.
  unfold orientationNormSq, rollControl.
  destruct (negb (isZero (roll this)) && negb (landed this)); [|reflexivity].
  proj_simpl. unfold Object3D.rotateZ. apply dot_rotateOnAxis.
  unfold Vector3.lengthSq. cbn. ring.
Qed.

Lemma norm_pitchControl delta this :
  orientationNormSq (pitchControl delta this) = orientationNormSq this.
Proof.
  unfold orientationNormSq, pitchControl.
  match goal with |- context [if ?c then _ else _] => destruct c end; [|reflexivity].
  proj_simpl. unfold Object3D.rotateX. apply dot_rotateOnAxis.
  unfold Vector3.lengthSq. cbn. ring.
Qed.

Lemma norm_yawControl delta speed this :
  orientationNormSq (yawControl delta speed this) = orientationNormSq this.
Proof.
  unfold orientationNormSq, yawControl.
  match goal with |- context [if ?c then _ else _] => destruct c end; [|reflexivity].
  proj_simpl. unfold Object3D.rotateY. apply dot_rotateOnAxis.
  unfold Vector3.lengthSq. cbn. ring.
Qed.

Lemma norm_autoYaw delta this :
  orientationNormSq (autoYaw delta this) = orientationNormSq this.
Proof.
  unfold orientationNormSq, autoYaw.
  match goal with |- context [if ?c then _ else _] => destruct c end; [|reflexivity].
  proj_simpl. rewrite dot_rotateOnWorldAxis.
  unfold Vector3.lengthSq, UP. cbn [Vector3.x Vector3.y Vector3.z].
  replace (1 - (0 * 0 + 1 * 1 + 0 * 0)) with 0 by ring. ring.
Qed.

Lemma norm_prepared this : orientationNormSq (prepared this) = orientationNormSq this.
Proof. reflexivity. Qed.

Lemma norm_beforePointDown delta this :
  orientationNormSq (beforePointDown delta this) = orientationNormSq this.
Proof.
  unfold beforePointDown, beforeAutoYaw, beforeYaw, beforePitch.
  rewrite norm_autoYaw, norm_yawControl, norm_pitchControl, norm_rollControl.
  apply norm_prepared.
Qed.

Lemma steered_beforePointDown delta this :
  steered delta this = pointDown delta (beforePointDown delta this).
Proof. reflexivity. Qed.

Lemma forward_beforePointDown delta this :
  forward (beforePointDown delta this) = forwardOf this.
Proof.
  unfold beforePointDown. rewrite autoYaw_shape. unfold requaternion. proj_simpl.
  apply forward_beforeAutoYaw.
Qed.

Lemma prjForward_beforePointDown delta this :
  prjForward (beforePointDown delta this) = Vector3.setY (forwardOf this) 0.
Proof.
  unfold beforePointDown. rewrite autoYaw_shape. unfold requaternion. proj_simpl.
  apply prjForward_beforeAutoYaw.
Qed.

Lemma stall_beforePointDown delta this :
  stall (beforePointDown delta this) = stall this.
Proof.
  unfold beforePointDown. rewrite autoYaw_shape. unfold requaternion. proj_simpl.
  unfold beforeAutoYaw, beforeYaw, beforePitch.
  rewrite yawControl_shape; unfold requaternion; proj_simpl.
  rewrite pitchControl_shape; unfold requaternion; proj_simpl.
  rewrite rollControl_shape; unfold requaternion; proj_simpl.
  reflexivity.
Qed.

Lemma landed_beforePointDown delta this :
  landed (beforePointDown delta this) = landed this.
Proof.
  unfold beforePointDown. rewrite autoYaw_shape. unfold requaternion. proj_simpl.
  unfold beforeAutoYaw, beforeYaw, beforePitch.
  rewrite yawControl_shape; unfold requaternion; proj_simpl.
  rewrite pitchControl_shape; unfold requaternion; proj_simpl.
  rewrite rollControl_shape; unfold requaternion; proj_simpl.
  reflexivity.
Qed.

(** The condition of lines 91-93 on the tick-start state. *)
Lemma pointDown_eq delta this :
  obj (steered delta this)
  = if (stall this >=? 0) && negb (landed this)
       && (Vector3.y (forwardOf this) >? -0.8)
    then Object3D.rotateOnWorldAxis (obj (beforePointDown delta this))
           (Vector3.normalize (groundRightOf this))
           (STALL_RATE * delta * (if Vector3.y (forwardOf this) >? 0 then 1 else -1))
    else obj (beforePointDown delta this).
Proof.
  rewrite steered_beforePointDown. unfold pointDown.
  rewrite stall_beforePointDown, landed_beforePointDown, forward_beforePointDown,
    prjForward_beforePointDown.
  destruct ((stall this >=? 0) && negb (landed this)); cbn [andb]; [|reflexivity].
  destruct (Vector3.y (forwardOf this) >? -0.8); [|reflexivity].
  proj_simpl. reflexivity.
Qed.

Lemma quaternion_advance delta this :
  Object3D.quaternion (obj (advance delta this))
  = Object3D.quaternion (obj (steered delta this)).
Proof.
  rewrite advance_eq, quaternion_apply, obj_timestep. apply quaternion_forced.
Qed.

Lemma norm_advance delta this :
  orientationNormSq (advance delta this) = orientationNormSq (steered delta this).
Proof. unfold orientationNormSq. rewrite quaternion_advance. reflexivity. Qed.

Lemma norm_step delta this :
  PLANE_DISTANCE_TO_GROUND <= altitude (advance delta this) ->
  orientationNormSq (step delta this) = orientationNormSq (steered delta this).
Proof.
  intros Hh. unfold orientationNormSq.
  rewrite step_eq, quaternion_wrapAround, avoidGroundCrash_not_below by exact Hh.
  rewrite quaternion_advance. reflexivity.
Qed.

(** X9.  Roll, pitch, yaw and automatic yaw never change the norm of
    the orientation quaternion, and neither does the stall block unless
    its rotation axis [forward x prjForward] is the zero vector: in a tick
    that does not hit the ground, and that is landed, or not stalling, or
    has [forward.y <= -0.8], or has a non-zero axis, the squared norm of
    the orientation after the tick is the one before it. *)
Theorem controls_keep_norm (delta : R) (this : ArcadeFlightModel) :
  PLANE_DISTANCE_TO_GROUND <= altitude (advance delta this) ->
  landed this = true \/ stall this < 0 \/ Vector3.y (forwardOf this) <= -0.8
  \/ groundRightOf this <> ZERO ->
  orientationNormSq (step delta this) = orientationNormSq this.
Proof.
  intros Hh Hc. rewrite norm_step by exact Hh.
  rewrite <- (norm_beforePointDown delta this).
  unfold orientationNormSq at 1. rewrite pointDown_eq.
  destruct ((stall this >=? 0) && negb (landed this)
            && (Vector3.y (forwardOf this) >? -0.8)) eqn:E; [|reflexivity].
  apply andb_prop in E. destruct E as [E Hy]. apply andb_prop in E.
  destruct E as [Hs Hl]. apply gt_spec in Hy.
  unfold JS.ge in Hs. destruct (Rle_dec 0 (stall this)) as [Hs'|]; [|discriminate].
  destruct Hc as [Hc|[Hc|[Hc|Hc]]];
    [rewrite Hc in Hl; discriminate | lra | lra |].
  rewrite dot_rotateOnWorldAxis, lengthSq_normalize.
  - unfold orientationNormSq. ring.
  - intros Hz. apply Hc. apply length_zero_inv. unfold Vector3.length.
    rewrite Hz. apply sqrt_0.
Qed.

(** X10.  When the stall block runs ([stall >= 0], airborne,
    [forward.y > -0.8]) with a nose that is exactly level or exactly
    vertical, [forward x prjForward] is the zero vector, [normalize ()]
    leaves it zero, and [rotateOnWorldAxis] multiplies the orientation by
    the quaternion [(0, 0, 0, cos (angle / 2))]: in a tick that does not
    hit the ground, the squared norm of the orientation is multiplied by
    [cos^2 (STALL_RATE * delta / 2)]. *)
Theorem degenerate_pointDown_shrinks (delta : R) (this : ArcadeFlightModel) :
  PLANE_DISTANCE_TO_GROUND <= altitude (advance delta this) ->
  landed this = false -> 0 <= stall this -> -0.8 < Vector3.y (forwardOf this) ->
  groundRightOf this = ZERO ->
  orientationNormSq (step delta this)
  = cos (STALL_RATE * delta / 2) * cos (STALL_RATE * delta / 2)
    * orientationNormSq this.
Proof.
  intros Hh Hl Hs Hy Hz. rewrite norm_step by exact Hh.
  rewrite <- (norm_beforePointDown delta this).
  unfold orientationNormSq at 1. rewrite pointDown_eq.
  apply gt_spec in Hy. rewrite Hy, Hl.
  unfold JS.ge. destruct (Rle_dec 0 (stall this)) as [_|]; [|contradiction].
  cbn [andb negb].
  rewrite dot_rotateOnWorldAxis, Hz, lengthSq_normalize_ZERO.
  unfold orientationNormSq.
  set (n := Quaternion.dot _ _).
  assert (Hc : forall a, 1 - (1 - 0) * (sin a * sin a) = cos a * cos a).
  { intros a. pose proof (sin2_cos2 a) as E. unfold Rsqr in E. lra. }
  rewrite Hc.
  destruct (Vector3.y (forwardOf this) >? 0).
  - replace (STALL_RATE * delta * 1 / 2) with (STALL_RATE * delta / 2) by lra.
    reflexivity.
  - replace (STALL_RATE * delta * -1 / 2) with (- (STALL_RATE * delta / 2)) by lra.
    rewrite cos_neg. reflexivity.
Qed.

End Orientation.

(** ** Rotated vectors *)

Lemma lengthSq_applyQuaternion (v : Vector3.t) (q : Quaternion.t) :
  Vector3.lengthSq (Vector3.applyQuaternion v q)
  = Quaternion.dot q q * Quaternion.dot q q * Vector3.lengthSq v.
Proof.
  unfold Vector3.applyQuaternion, Vector3.lengthSq, Quaternion.dot.
  cbn [Vector3.x Vector3.y Vector3.z]. ring.
Qed.

Lemma lengthSq_nonneg (v : Vector3.t) : 0 <= Vector3.lengthSq v.
Proof. unfold Vector3.lengthSq. nra. Qed.

Lemma lengthSq_normalize_le (v : Vector3.t) : Vector3.lengthSq (Vector3.normalize v) <= 1.
Proof.
  destruct (Req_dec_T (Vector3.lengthSq v) 0) as [E|E].
  - assert (Hv : v = ZERO).
    { apply length_zero_inv. unfold Vector3.length. rewrite E. apply sqrt_0. }
    rewrite Hv, lengthSq_normalize_ZERO. lra.
  - rewrite lengthSq_normalize by exact E. lra.
Qed.

Lemma dot_le_1 (a b : Vector3.t) :
  Vector3.lengthSq a <= 1 -> Vector3.lengthSq b <= 1 -> Vector3.dot a b <= 1.
Proof.
  unfold Vector3.lengthSq, Vector3.dot. intros Ha Hb.
  pose proof (Rle_0_sqr (Vector3.x a - Vector3.x b)) as Hx.
  pose proof (Rle_0_sqr (Vector3.y a - Vector3.y b)) as Hy.
  pose proof (Rle_0_sqr (Vector3.z a - Vector3.z b)) as Hz.
  unfold Rsqr in *. lra.
Qed.

Lemma angleTo_range (a b : Vector3.t) : 0 <= Vector3.angleTo a b <= PI.
Proof.
  unfold Vector3.angleTo.
  destruct (_ =? 0); [pose proof PI_RGT_0; lra | apply acos_bound].
Qed.

Lemma length_multiplyScalar (v : Vector3.t) (s : R) :
  0 <= s -> Vector3.lengthSq v = 1 -> Vector3.length (Vector3.multiplyScalar v s) = s.
Proof.
  intros Hs Hv. unfold Vector3.length.
  replace (Vector3.lengthSq (Vector3.multiplyScalar v s)) with (s * s).
  - apply sqrt_square, Hs.
  - unfold Vector3.multiplyScalar, Vector3.lengthSq in *.
    cbn [Vector3.x Vector3.y Vector3.z].
    replace (Vector3.x v * s * (Vector3.x v * s) + Vector3.y v * s * (Vector3.y v * s)
             + Vector3.z v * s * (Vector3.z v * s))
      with ((Vector3.x v * Vector3.x v + Vector3.y v * Vector3.y v
             + Vector3.z v * Vector3.z v) * (s * s)) by ring.
    rewrite Hv. ring.
Qed.

Lemma quat_ext (a b : Quaternion.t) :
  Quaternion.x a = Quaternion.x b -> Quaternion.y a = Quaternion.y b ->
  Quaternion.z a = Quaternion.z b -> Quaternion.w a = Quaternion.w b -> a = b.
Proof.
  destruct a, b. cbn. intros -> -> -> ->. reflexivity.
Qed.

Lemma rotateOnAxis_0 (o : Object3D.t) (axis : Vector3.t) :
  Object3D.rotateOnAxis o axis 0 = o.
Proof.
  destruct o as [q p]. unfold Object3D.rotateOnAxis, Object3D.set_quaternion.
  cbn [Object3D.quaternion Object3D.position]. f_equal.
  unfold setFromAxisAngle, Quaternion.multiply, Quaternion.multiplyQuaternions.
  replace (0 / 2) with 0 by lra. rewrite sin_0, cos_0.
  apply quat_ext; cbn [Quaternion.x Quaternion.y Quaternion.z Quaternion.w]; ring.
Qed.

Section Readings.
Context `{D : Defs} `{W : World}.

(** ** The angle of attack and the drag *)

(** X11.  The angle of attack of lines 55-58 always lies within
    [-PI, PI]. *)
Theorem aoa_range (this : ArcadeFlightModel) :
  - PI <= snd (angleOfAttack (basis this)) <= PI.
Proof.
  unfold angleOfAttack. proj_simpl.
  match goal with |- context [Vector3.angleTo ?a ?b] =>
    pose proof (angleTo_range a b) as Ha; set (t := Vector3.angleTo a b) in * end.
  destruct (_ >? 0); lra.
Qed.

Lemma airDensityOf_pos this : 0 < airDensityOf this.
Proof.
  unfold airDensityOf, GROUND_AIR_DENSITY.
  pose proof (exp_pos (- Vector3.y (Object3D.position (obj this)) / 8000)). nra.
Qed.

Lemma lengthSq_forwardOf this :
  orientationNormSq this = 1 -> Vector3.lengthSq FORWARD = 1 ->
  Vector3.lengthSq (forwardOf this) = 1.
Proof.
  unfold orientationNormSq, forwardOf. intros Hq Hf.
  rewrite lengthSq_applyQuaternion, Hq, Hf. ring.
Qed.

(** X12.  With a unit orientation and a unit [FORWARD], the call of
    [Math.pow] in the drag (lines 110-113) has a base that is at least [0]
    and an exponent that is at least [1]: it is never evaluated at a
    negative base, nor at base [0] with a non-positive exponent. *)
Theorem drag_pow_in_domain (this : ArcadeFlightModel) :
  orientationNormSq this = 1 -> Vector3.lengthSq FORWARD = 1 ->
  0 <= dragBaseOf this /\ 1 <= dragExponentOf this.
Proof.
  intros Hq Hf. split.
  - unfold dragBaseOf. cbv zeta.
    set (aoa := snd _).
    pose proof (COS_bound (2.0 * aoa)) as [_ Hc].
    pose proof (airDensityOf_pos this) as Hd.
    pose proof (Rle_0_sqr (speedOf this)) as Hs. unfold Rsqr in Hs.
    unfold CD, WING_AREA.
    assert (Hk : 0 <= 0.5 * (0.15 + (1 - cos (2.0 * aoa))) * airDensityOf this) by nra.
    pose proof (Rmult_le_pos _ _ Hk Hs). nra.
  - unfold dragExponentOf. cbv zeta.
    pose proof (dot_le_1 (forwardOf this) (Vector3.normalize (velocity this))) as Hdot.
    rewrite (lengthSq_forwardOf this Hq Hf) in Hdot.
    specialize (Hdot (Rle_refl 1) (lengthSq_normalize_le _)).
    pose proof (Rabs_pos (Vector3.y (rightOf this))).
    unfold INDUCED_DRAG_FACTOR, ROLL_DRAG_FACTOR. lra.
Qed.

(** ** The thrust *)

Lemma thrust_step delta this : thrust (step delta this) = thrustOf this.
Proof.
  rewrite step_eq; unfold wrapAround; proj_simpl;
  rewrite avoidGroundCrash_shape; proj_simpl;
  rewrite advance_eq, apply_shape; proj_simpl;
  rewrite timestep_shape; proj_simpl.
  unfold forced; rewrite frictionForce_shape; proj_simpl.
  rewrite powered_eq. unfold allForces. proj_simpl.
  rewrite velocityRotation_shape. proj_simpl.
  unfold weightForce, lift, dragForce, thrustForce. proj_simpl.
  rewrite forward_steered, throttle_steered. reflexivity.
Qed.

Lemma snap_along (epsilon c a : R) : 0 <= c * a -> 0 <= snap epsilon c * a.
Proof.
  intros Hc. destruct (snap_cases epsilon c) as [E|E]; rewrite E; lra.
Qed.

Lemma along (a k : R) : 0 <= k -> 0 <= a * k * a.
Proof. intros Hk. pose proof (Rle_0_sqr a) as Ha. unfold Rsqr in Ha. nra. Qed.

(** X13.  With a non-negative throttle the thrust of every tick never
    points against the nose the tick started with (their dot product is
    at least [0]), and with zero throttle it is the zero vector. *)
Theorem thrust_never_brakes (delta : R) (this : ArcadeFlightModel) :
  0 <= throttle this ->
  0 <= Vector3.dot (thrust (step delta this)) (forwardOf this)
  /\ (throttle this = 0 -> thrust (step delta this) = ZERO).
Proof.
  intros Ht. rewrite thrust_step. split; [|apply thrustOf_idle].
  unfold thrustOf, roundToZero, roundToZero_with. vec_simpl.
  pose proof (airDensityOf_pos this) as Hd.
  set (k := airDensityOf this * MAX_THRUST * throttle this * DRY_MASS).
  assert (Hk : 0 <= k).
  { unfold k, MAX_THRUST, DRY_MASS.
    pose proof (Rmult_le_pos _ _ (Rlt_le _ _ Hd) Ht). nra. }
  pose proof (snap_along roundToZero_epsilon _ _ (along (Vector3.x (forwardOf this)) k Hk)).
  pose proof (snap_along roundToZero_epsilon _ _ (along (Vector3.y (forwardOf this)) k Hk)).
  pose proof (snap_along roundToZero_epsilon _ _ (along (Vector3.z (forwardOf this)) k Hk)).
  lra.
Qed.

(** ** The velocity rotation on the ground *)

Lemma velocity_powered delta this :
  velocity (powered delta this)
  = velocity
      (velocityRotation delta (speedOf this)
         (weightForce (speedOf this)
            (lift (airDensityOf (basis this)) (speedOf this)
               (snd (angleOfAttack (basis this)))
               (dragForce (airDensityOf (basis this)) (speedOf this)
                  (snd (angleOfAttack (basis this)))
                  (thrustForce (airDensityOf (basis this)) (steered delta this)))))).
Proof. rewrite powered_eq. unfold allForces. proj_simpl. reflexivity. Qed.

Lemma velocity_velocityRotation_landed delta speed this :
  landed this = true ->
  velocity (velocityRotation delta speed this)
  = if isZero speed then velocity this
    else Vector3.multiplyScalar (forward this) speed.
Proof.
  intros Hl. unfold velocityRotation. rewrite Hl.
  destruct (isZero speed); reflexivity.
Qed.

Lemma velocity_powered_landed delta this :
  landed this = true ->
  velocity (powered delta this)
  = if isZero (speedOf this) then velocity this
    else Vector3.multiplyScalar (forwardOf this) (speedOf this).
Proof.
  intros Hl. rewrite velocity_powered, velocity_velocityRotation_landed.
  - unfold weightForce, lift, dragForce, thrustForce. proj_simpl.
    rewrite velocity_steered, forward_steered. reflexivity.
  - unfold weightForce, lift, dragForce, thrustForce. proj_simpl.
    rewrite landed_steered. exact Hl.
Qed.

(** X14.  On the ground, with a unit orientation and a unit [FORWARD],
    the velocity rotation (lines 136-139) keeps the speed; when the speed
    is not near zero, it replaces the velocity by the tick-start nose
    direction times the speed, so that any sideways velocity is lost. *)
Theorem ground_speed_kept (delta : R) (this : ArcadeFlightModel) :
  landed this = true ->
  orientationNormSq this = 1 -> Vector3.lengthSq FORWARD = 1 ->
  speedOf (powered delta this) = speedOf this
  /\ (isZero (speedOf this) = false ->
      velocity (powered delta this)
      = Vector3.multiplyScalar (forwardOf this) (speedOf this)).
Proof.
  intros Hl Hq Hf. rewrite (velocity_powered_landed delta this Hl).
  unfold speedOf at 1. rewrite (velocity_powered_landed delta this Hl).
  destruct (isZero (speedOf this)).
  - split; [reflexivity|discriminate].
  - split; [|reflexivity]. apply length_multiplyScalar.
    + unfold speedOf, Vector3.length. apply sqrt_pos.
    + apply lengthSq_forwardOf; assumption.
Qed.

(** ** The stall index *)

Lemma stall_powered_eq delta this :
  stall (powered delta this)
  = - clamp (2 * (speedOf this / 256.0)
             * ((-0.5 * Vector3.y (forwardOf this) + 1.5)
                * (-0.5 * Rabs (Vector3.y (rightOf this)) + 1.5)
                + (-0.5 * Rabs (Vector3.y (rightOf this)) + 1.5))
             * airDensityOf this / minLiftFactor
             + aoaLiftOf (snd (angleOfAttack (basis this)))
               * (1.0 - Rabs (Vector3.y (rightOf this))) - 1.0) (-1.0) 1.0.
Proof.
  rewrite powered_eq. unfold allForces. proj_simpl.
  rewrite velocityRotation_shape. proj_simpl.
  unfold weightForce, lift, liftFactorOf. proj_simpl.
  unfold dragForce, thrustForce. proj_simpl.
  rewrite forward_steered, right_steered. reflexivity.
Qed.

(** X15.  The stall value has no memory: for two models with the same
    position, orientation and velocity, in ticks that do not hit the
    ground, [getStallStatus] gives the same value after the tick, whatever
    the earlier stall values, the control inputs, the throttle, [landed]
    and the tick lengths are. *)
Theorem stall_memoryless (da db : R) (a b : ArcadeFlightModel) :
  obj a = obj b -> velocity a = velocity b ->
  PLANE_DISTANCE_TO_GROUND <= altitude (advance da a) ->
  PLANE_DISTANCE_TO_GROUND <= altitude (advance db b) ->
  getStallStatus (step da a) = getStallStatus (step db b).
Proof.
  intros Ho Hv Ha Hb. unfold getStallStatus.
  rewrite (stall_step_not_below da a Ha), (stall_step_not_below db b Hb).
  rewrite !stall_powered_eq.
  unfold angleOfAttack, basis, speedOf, forwardOf, rightOf, airDensityOf. proj_simpl.
  rewrite Ho, Hv. reflexivity.
Qed.

(** ** Static friction *)

Lemma velocity_step delta this :
  PLANE_DISTANCE_TO_GROUND <= altitude (advance delta this) ->
  velocity (step delta this) = velocity (advance delta this).
Proof.
  intros Hh. rewrite step_eq, velocity_wrapAround.
  rewrite avoidGroundCrash_not_below by exact Hh. reflexivity.
Qed.

(** X16.  A landed aircraft with near-zero speed whose horizontal
    forces are below the static friction gains no horizontal velocity in
    the tick: the [x] and [z] of its velocity after the tick are those it
    started with, rounded by line 184. *)
Theorem static_friction_holds (delta : R) (this : ArcadeFlightModel) :
  landed this = true -> isZero (speedOf this) = true ->
  Vector3.length (Vector3.setY (forces (powered delta this)) 0)
  < GROUND_FRICTION_STATIC * (DRY_MASS * GRAVITY) ->
  Vector3.x (velocity (step delta this))
  = snap (applyEpsilon this) (Vector3.x (velocity this))
  /\ Vector3.z (velocity (step delta this))
     = snap (applyEpsilon this) (Vector3.z (velocity this)).
Proof.
  intros Hl Hz Hs.
  assert (Hxz : forall v, Vector3.x (velocity (wrapAround (avoidGroundCrash v)))
                          = Vector3.x (velocity v)
                          /\ Vector3.z (velocity (wrapAround (avoidGroundCrash v)))
                             = Vector3.z (velocity v)).
  { intros v. rewrite velocity_wrapAround, velocity_avoidGroundCrash.
    destruct (_ <? _); split; reflexivity. }
  rewrite step_eq. destruct (Hxz (advance delta this)) as [-> ->].
  rewrite velocity_advance, velocity_timestep. unfold forced.
  destruct (frictionForce_frame (speedOf (basis this)) (powered delta this))
    as (Fl & Fv & Ff & _).
  rewrite Fl, Fv, Ff, landed_powered, Hl.
  rewrite frictionForce_static;
    [|rewrite landed_powered; exact Hl | rewrite speedOf_basis; exact Hz | exact Hs].
  rewrite (velocity_powered_landed delta this Hl), Hz.
  unfold roundToZero, roundToZero_with. vec_simpl.
  rewrite !cancel_snap. cbn [andb].
  destruct (_ <? 0); cbn [Vector3.x Vector3.y Vector3.z];
    split; f_equal; ring.
Qed.

(** ** A tick of no duration *)

Lemma obj_steered_0 this : obj (steered 0 this) = obj this.
Proof.
  unfold steered, controls.
  assert (Hr : rollControl 0 (prepared this) = prepared this).
  { unfold rollControl. destruct (_ && _); [|reflexivity].
    unfold Object3D.rotateZ.
    replace (roll (prepared this) * ROLL_RATE * 0) with 0 by ring.
    rewrite rotateOnAxis_0. reflexivity. }
  rewrite Hr.
  assert (Hp : pitchControl 0 (prepared this) = prepared this).
  { unfold pitchControl.
    match goal with |- context [if ?c then _ else _] => destruct c end; [|reflexivity].
    unfold Object3D.rotateX.
    replace (- pitch (prepared this) * PITCH_RATE * 0) with 0 by ring.
    rewrite rotateOnAxis_0. reflexivity. }
  rewrite Hp.
  assert (Hy : yawControl 0 (speedOf (basis this)) (prepared this) = prepared this).
  { unfold yawControl.
    match goal with |- context [if ?c then _ else _] => destruct c end; [|reflexivity].
    unfold Object3D.rotateY.
    replace (- yaw (prepared this) * YAW_RATE * 0) with 0 by ring.
    rewrite rotateOnAxis_0. reflexivity. }
  rewrite Hy.
  assert (Ha : obj (autoYaw 0 (prepared this)) = obj this).
  { unfold autoYaw.
    match goal with |- context [if ?c then _ else _] => destruct c end; [|reflexivity].
    proj_simpl. unfold autoYawAngle.
    match goal with |- context [Object3D.rotateOnWorldAxis _ _ ?a] =>
      replace a with 0 by ring end.
    rewrite rotateOnWorldAxis_0. reflexivity. }
  assert (Hq : Object3D.quaternion (obj (pointDown 0 (autoYaw 0 (prepared this))))
               = Object3D.quaternion (obj this)).
  { unfold pointDown.
    destruct (_ && _); [|rewrite Ha; reflexivity].
    destruct (_ >? -0.8); [|rewrite Ha; reflexivity].
    proj_simpl.
    match goal with |- context [Object3D.rotateOnWorldAxis _ _ ?a] =>
      replace a with 0 by ring end.
    rewrite rotateOnWorldAxis_0, Ha. reflexivity. }
  apply obj_ext; [exact Hq|].
  rewrite pointDown_shape. unfold requaternion. proj_simpl.
  rewrite Ha. reflexivity.
Qed.

(** X17.  A tick of length [0] that starts at or above the ground
    clearance and inside the world leaves position and orientation as
    they were, whatever the control inputs, the velocity and the stall
    value are. *)
Theorem zero_tick (this : ArcadeFlightModel) :
  PLANE_DISTANCE_TO_GROUND <= altitude this ->
  - terrainHalfSize <= Vector3.x (Object3D.position (obj this)) <= terrainHalfSize ->
  - terrainHalfSize <= Vector3.z (Object3D.position (obj this)) <= terrainHalfSize ->
  obj (step 0 this) = obj this.
Proof.
  intros Hh Hx Hz.
  assert (Hp : Object3D.position (obj (advance 0 this)) = Object3D.position (obj this)).
  { rewrite position_advance. apply vec_ext; vec_simpl; ring. }
  assert (Ha : altitude (advance 0 this) = altitude this)
    by (unfold altitude; rewrite Hp; reflexivity).
  rewrite step_eq, avoidGroundCrash_not_below by (rewrite Ha; exact Hh).
  apply obj_ext.
  - rewrite quaternion_wrapAround, quaternion_advance, obj_steered_0. reflexivity.
  - unfold wrapAround. proj_simpl. rewrite Hp.
    rewrite (wrap_inside _ Hx), (wrap_inside _ Hz).
    destruct (Object3D.position (obj this)); reflexivity.
Qed.

End Readings.

(** * The samples *)

#[local] Existing Instance sampleDefs.
#[local] Existing Instance rootWorld.

Ltac sample_simpl :=
  unfold forwardOf, upOf, rightOf, altitude, Vector3.applyQuaternion, UP, ZERO;
  cbn [FORWARD RIGHT PLANE_DISTANCE_TO_GROUND TERRAIN_SCALE TERRAIN_MODEL_SIZE
       PITCH_RATE ROLL_RATE YAW_RATE isZero_epsilon roundToZero_epsilon sampleDefs
       obj velocity roll pitch yaw throttle landed stall
       Object3D.quaternion Object3D.position
       Quaternion.x Quaternion.y Quaternion.z Quaternion.w Quaternion.identity
       Vector3.x Vector3.y Vector3.z parked sunk hovering banked noseUp pullUp rocket newModel].

Ltac vec_eq := apply vec_ext; cbn [Vector3.x Vector3.y Vector3.z]; lra.

Lemma sample_epsilon : 0 < isZero_epsilon.
Proof. sample_simpl. lra. Qed.

Lemma sample_halfSize : terrainHalfSize = 25000.
Proof. unfold terrainHalfSize. sample_simpl. lra. Qed.

(** Level attitude *)

Lemma forwardOf_level p l s i :
  forwardOf (newModel (Object3D.mk Quaternion.identity p) l s i) = Vector3.mk 0 0 1.
Proof. sample_simpl. vec_eq. Qed.

Lemma upOf_level p l s i :
  upOf (newModel (Object3D.mk Quaternion.identity p) l s i) = Vector3.mk 0 1 0.
Proof. sample_simpl. vec_eq. Qed.

Lemma length_nose : Vector3.length (Vector3.mk 0 0 1) = 1.
Proof.
  unfold Vector3.length, Vector3.lengthSq. cbn [Vector3.x Vector3.y Vector3.z].
  replace (0 * 0 + 0 * 0 + 1 * 1) with 1 by lra. apply sqrt_1.
Qed.

Lemma static_level p l s i :
  let this := newModel (Object3D.mk Quaternion.identity p) l s i in
  Rabs (Vector3.y (forwardOf this))
  * Vector3.length (Vector3.setY (forwardOf this) 0) < GROUND_FRICTION_STATIC.
Proof.
  intros this. unfold this. rewrite forwardOf_level.
  cbn [Vector3.y]. rewrite Rabs_R0. unfold GROUND_FRICTION_STATIC. lra.
Qed.

Lemma prjUp_of (u f : Vector3.t) this :
  upOf this = u -> forwardOf this = f ->
  prjUpOf (basis this)
  = Vector3.setY (Vector3.projectOnPlane u (Vector3.setY f 0)) 0.
Proof. intros <- <-. reflexivity. Qed.

Lemma wings_level p l s i :
  prjUpOf (basis (newModel (Object3D.mk Quaternion.identity p) l s i)) = ZERO.
Proof.
  rewrite (prjUp_of _ _ _ (upOf_level p l s i) (forwardOf_level p l s i)).
  unfold Vector3.projectOnPlane, Vector3.projectOnVector.
  assert (E : (Vector3.lengthSq (Vector3.setY (Vector3.mk 0 0 1) 0) =? 0) = false).
  { apply eq_false. vec_simpl. lra. }
  rewrite E. apply vec_ext; vec_simpl; unfold Rdiv; lra.
Qed.

Lemma atRest_parked : atRest parked.
Proof. unfold atRest. sample_simpl. repeat split; lra. Qed.

Lemma settled_parked : settled parked.
Proof.
  unfold settled. split; [apply static_level|]. split; [apply wings_level|].
  rewrite sample_halfSize. sample_simpl. lra.
Qed.

(** ** Witnesses on the ground *)


Lemma altitude_parked : altitude parked = PLANE_DISTANCE_TO_GROUND.
Proof. reflexivity. Qed.

Lemma ground_stick_witness :
  velocity (steps 1 3 parked) = ZERO
  /\ landed (steps 1 3 parked) = true
  /\ Object3D.position (obj (steps 1 3 parked)) = Object3D.position (obj parked)
  /\ Object3D.quaternion (obj (steps 1 3 parked)) = Object3D.quaternion (obj parked).
Proof.
  exact (ground_stick 1 3 parked sample_epsilon Rle_0_1 atRest_parked settled_parked).
Defined.




Lemma advance_parked :
  altitude (advance 1 parked) = PLANE_DISTANCE_TO_GROUND.
Proof.
  destruct (advance_rest_landed 1 parked sample_epsilon Rle_0_1 eq_refl eq_refl eq_refl
              (static_level _ _ _ _)) as (_ & Hp & _).
  unfold altitude. rewrite Hp. reflexivity.
Qed.

Lemma stationary_stall_witness : 0.8 <= stall (step 1 parked).
Proof.
  apply (stationary_stall 1 parked).
  - change (velocity parked) with ZERO. exact length_ZERO.
  - rewrite advance_parked. apply Rle_refl.
Defined.


Lemma world_wrap_witness :
  - terrainHalfSize <= Vector3.x (Object3D.position (obj (step 1 parked)))
  <= terrainHalfSize.
Proof.
  assert (HH : 0 <= terrainHalfSize) by (rewrite sample_halfSize; lra).
  destruct (world_wrap 1 parked HH) as (_ & _ & _ & _ & _ & _ & _ & _ & Hx & _).
  exact Hx.
Defined.

(** ** The pitch block on the two stalling samples *)

Lemma forwardOf_noseUp : forwardOf noseUp = Vector3.mk 0 (24 / 25) (7 / 25).
Proof. sample_simpl. vec_eq. Qed.

Lemma upOf_noseUp : upOf noseUp = Vector3.mk 0 (7 / 25) (- 24 / 25).
Proof. sample_simpl. vec_eq. Qed.

Lemma upOf_pullUp : upOf pullUp = Vector3.mk 0 (7 / 25) (- 24 / 25).
Proof. sample_simpl. vec_eq. Qed.

Lemma pitch_gate_witness :
  obj (pitchControl 1 (beforePitch 1 pullUp)) = obj (beforePitch 1 pullUp).
Proof.
  destruct (pitch_gate 1 pullUp) as [_ Hblocked].
  apply Hblocked.
  - sample_simpl. lra.
  - rewrite upOf_pullUp. cbn [Vector3.y]. lra.
  - sample_simpl. lra.
Defined.

Lemma isZero_unit_false : isZero (-1) = false.
Proof.
  unfold isZero. apply lt_false. sample_simpl.
  unfold Rabs. destruct (Rcase_abs (-1)); lra.
Qed.

Lemma pitchAllowed_noseUp : pitchAllowed noseUp = true.
Proof.
  unfold pitchAllowed. rewrite upOf_noseUp.
  change (pitch noseUp) with (-1). change (stall noseUp) with 0.5.
  change (landed noseUp) with false. cbn [Vector3.y].
  rewrite isZero_unit_false.
  assert (E1 : (-1 <? 0) = true) by (apply lt_spec; lra).
  assert (E2 : (7 / 25 >? 0) = true) by (apply gt_spec; lra).
  rewrite E1, E2. cbn [negb andb orb]. rewrite orb_true_r. reflexivity.
Qed.

Lemma rollControl_idle delta this :
  isZero (roll this) = true -> rollControl delta this = this.
Proof. intros Hz. unfold rollControl. rewrite Hz. reflexivity. Qed.

Lemma beforePitch_noseUp : obj (beforePitch 1 noseUp) = obj noseUp.
Proof.
  unfold beforePitch. rewrite rollControl_idle; [reflexivity|].
  change (roll (prepared noseUp)) with 0. apply isZero_0, sample_epsilon.
Qed.

Lemma sin_half_pos : 0 < sin (1 / 2).
Proof. apply sin_gt_0; pose proof PI2_3_2; lra. Qed.

(** C1 as stated fails: [noseUp] is stalling ([stall >= 0]) with the
    nose above the horizon ([forward.y > 0], and upright, [up.y > 0]), its
    pitch input is negative, and the pitch block does rotate it. *)
Lemma pitch_gate_counterexample :
  0 <= stall noseUp
  /\ 0 < Vector3.y (forwardOf noseUp)
  /\ 0 < Vector3.y (upOf noseUp)
  /\ pitch noseUp < 0
  /\ obj (pitchControl 1 (beforePitch 1 noseUp)) <> obj (beforePitch 1 noseUp).
Proof.
  split; [sample_simpl; lra|].
  split; [rewrite forwardOf_noseUp; cbn [Vector3.y]; lra|].
  split; [rewrite upOf_noseUp; cbn [Vector3.y]; lra|].
  split; [sample_simpl; lra|].
  rewrite pitchControl_obj, pitchAllowed_noseUp, beforePitch_noseUp.
  intros Heq.
  apply (f_equal (fun o => Quaternion.x (Object3D.quaternion o))) in Heq as Hx.
  apply (f_equal (fun o => Quaternion.w (Object3D.quaternion o))) in Heq as Hw.
  unfold Object3D.rotateX, Object3D.rotateOnAxis, Object3D.set_quaternion,
    Quaternion.multiply, Quaternion.multiplyQuaternions, setFromAxisAngle in Hx, Hw.
  cbn [Object3D.quaternion Quaternion.x Quaternion.y Quaternion.z Quaternion.w
       Vector3.x Vector3.y Vector3.z obj noseUp newModel pitch PITCH_RATE sampleDefs]
    in Hx, Hw.
  replace (- -1 * 1 * 1 / 2) with (1 / 2) in Hx, Hw by lra.
  pose proof sin_half_pos. lra.
Qed.

(** ** The banked sample: the automatic yaw turns a standing aircraft *)

Lemma forwardOf_banked : forwardOf banked = Vector3.mk 0 0 1.
Proof. sample_simpl. vec_eq. Qed.

Lemma upOf_banked : upOf banked = Vector3.mk (- 24 / 25) (7 / 25) 0.
Proof. sample_simpl. vec_eq. Qed.


Lemma prjUpOf_banked :
  prjUpOf (basis banked) = Vector3.mk (- 24 / 25) 0 0.
Proof.
  rewrite (prjUp_of _ _ _ upOf_banked forwardOf_banked).
  unfold Vector3.projectOnPlane, Vector3.projectOnVector.
  assert (E : (Vector3.lengthSq (Vector3.setY (Vector3.mk 0 0 1) 0) =? 0) = false).
  { apply eq_false. vec_simpl. lra. }
  rewrite E. apply vec_ext; vec_simpl; unfold Rdiv; lra.
Qed.

Lemma length_prjUp_banked : Vector3.length (Vector3.mk (- 24 / 25) 0 0) = 24 / 25.
Proof.
  unfold Vector3.length, Vector3.lengthSq. cbn [Vector3.x Vector3.y Vector3.z].
  replace (- 24 / 25 * (- 24 / 25) + 0 * 0 + 0 * 0) with ((24 / 25) * (24 / 25)) by lra.
  apply sqrt_square. lra.
Qed.

Lemma autoYawAngle_banked :
  autoYawAngle 1 (prjForward (prepared banked)) (prjUpOf (prepared banked))
  = - (1152 / 625).
Proof.
  change (prjUpOf (prepared banked)) with (prjUpOf (basis banked)).
  change (prjForward (prepared banked)) with (Vector3.setY (forwardOf banked) 0).
  rewrite prjUpOf_banked, forwardOf_banked. unfold autoYawAngle.
  rewrite length_prjUp_banked.
  change (Vector3.setY (Vector3.mk 0 0 1) 0) with (Vector3.mk 0 0 1).
  rewrite length_nose. cbn [Vector3.x Vector3.z].
  assert (E : (0 * 0 - 1 * (- 24 / 25) >? 0) = true) by (apply gt_spec; lra).
  rewrite E. sample_simpl. lra.
Qed.

Lemma steered_banked :
  Object3D.quaternion (obj (steered 1 banked))
  = Object3D.quaternion
      (Object3D.rotateOnWorldAxis (obj banked) UP (- (1152 / 625))).
Proof.
  rewrite steered_eq.
  rewrite (rollControl_landed 1 (prepared banked)) by reflexivity.
  rewrite pitchControl_idle
    by (change (pitch (prepared banked)) with 0; apply isZero_0, sample_epsilon).
  rewrite yawControl_idle
    by (change (yaw (prepared banked)) with 0; apply isZero_0, sample_epsilon).
  rewrite pointDown_landed
    by (rewrite autoYaw_shape; unfold requaternion; proj_simpl; reflexivity).
  rewrite autoYaw_in_range
    by (change (forward (prepared banked)) with (forwardOf banked);
        rewrite forwardOf_banked; cbn [Vector3.y]; lra).
  rewrite autoYawAngle_banked. reflexivity.
Qed.

Lemma static_banked :
  Rabs (Vector3.y (forwardOf banked))
  * Vector3.length (Vector3.setY (forwardOf banked) 0) < GROUND_FRICTION_STATIC.
Proof.
  rewrite forwardOf_banked. cbn [Vector3.y]. rewrite Rabs_R0.
  unfold GROUND_FRICTION_STATIC. lra.
Qed.

Lemma atRest_banked : atRest banked.
Proof. unfold atRest. sample_simpl. repeat split; lra. Qed.

Lemma step_banked :
  Object3D.quaternion (obj (step 1 banked))
  = Object3D.quaternion
      (Object3D.rotateOnWorldAxis (obj banked) UP (- (1152 / 625))).
Proof.
  destruct (advance_rest_landed 1 banked sample_epsilon Rle_0_1 eq_refl eq_refl eq_refl
              static_banked) as (_ & Hp & Hq).
  rewrite step_eq, quaternion_wrapAround.
  rewrite avoidGroundCrash_not_below.
  - rewrite Hq. apply steered_banked.
  - unfold altitude. rewrite Hp. sample_simpl. lra.
Qed.

Lemma sin_turn_neg : sin (- (1152 / 625) / 2) < 0.
Proof.
  replace (- (1152 / 625) / 2) with (- (576 / 625)) by lra.
  rewrite sin_neg.
  assert (0 < sin (576 / 625)) by (apply sin_gt_0; pose proof PI2_3_2; lra).
  lra.
Qed.

(** C4 as stated fails: [banked] starts a tick at rest, and the tick
    changes its orientation. *)
Lemma ground_stick_counterexample :
  atRest banked
  /\ Object3D.quaternion (obj (step 1 banked)) <> Object3D.quaternion (obj banked).
Proof.
  split; [exact atRest_banked|].
  rewrite step_banked. intros Heq.
  apply (f_equal Quaternion.x) in Heq.
  unfold Object3D.rotateOnWorldAxis, Object3D.set_quaternion,
    Quaternion.premultiply, Quaternion.multiplyQuaternions, setFromAxisAngle, UP in Heq.
  cbn [Object3D.quaternion Quaternion.x Quaternion.y Quaternion.z Quaternion.w
       Vector3.x Vector3.y Vector3.z obj banked newModel] in Heq.
  pose proof sin_turn_neg. lra.
Qed.

(** ** The hovering sample: a descent that ends exactly at the clearance *)

Lemma restWeight_level p l s i :
  restWeight (newModel (Object3D.mk Quaternion.identity p) l s i)
  = Vector3.mk 0 (- (DRY_MASS * GRAVITY)) 0.
Proof.
  unfold restWeight. rewrite forwardOf_level. apply vec_ext; vec_simpl; lra.
Qed.

Lemma frictionForce_airborne speed this :
  landed this = false -> friction (frictionForce speed this) = ZERO.
Proof. intros Hl. unfold frictionForce. rewrite Hl. reflexivity. Qed.




(** ** The rocket sample: a climb that ends exactly at the clearance *)



Lemma Rabs_large (c : R) : 0 <= c -> Rabs c = c.
Proof. intros Hc. apply Rabs_pos_eq, Hc. Qed.








(** ** The parked sample again *)

Lemma position_advance_parked :
  Object3D.position (obj (advance 1 parked)) = Vector3.mk 0 2 0.
Proof.
  destruct (advance_rest_landed 1 parked sample_epsilon Rle_0_1 eq_refl eq_refl eq_refl
              (static_level _ _ _ _)) as (_ & Hp & _).
  exact Hp.
Qed.

Lemma inside_0 : - terrainHalfSize <= 0 <= terrainHalfSize.
Proof. rewrite sample_halfSize. lra. Qed.

Lemma unit_parked : orientationNormSq parked = 1.
Proof.
  unfold orientationNormSq, Quaternion.dot. sample_simpl. lra.
Qed.

Lemma unit_FORWARD : Vector3.lengthSq FORWARD = 1.
Proof. unfold Vector3.lengthSq. sample_simpl. lra. Qed.

Lemma landed_never_sinks_witness : altitude parked <= altitude (step 1 parked).
Proof. exact (landed_never_sinks 1 parked eq_refl Rle_0_1). Defined.

Lemma displacement_witness :
  Object3D.position (obj (step 1 parked))
  = Vector3.addScaledVector (Object3D.position (obj parked))
      (velocity (step 1 parked)) 1.
Proof.
  apply (displacement 1 parked).
  - rewrite advance_parked. apply Rle_refl.
  - rewrite position_advance_parked. exact inside_0.
  - rewrite position_advance_parked. exact inside_0.
Defined.

Lemma step_is_grounded_and_wrapped_witness :
  avoidGroundCrash (step 1 parked) = step 1 parked
  /\ wrapAround (step 1 parked) = step 1 parked.
Proof.
  apply (step_is_grounded_and_wrapped 1 parked).
  rewrite sample_halfSize. lra.
Defined.

Lemma controls_keep_norm_witness :
  orientationNormSq (step 1 parked) = orientationNormSq parked.
Proof.
  apply (controls_keep_norm 1 parked).
  - rewrite advance_parked. apply Rle_refl.
  - left. reflexivity.
Defined.

Lemma drag_pow_in_domain_witness :
  0 <= dragBaseOf parked /\ 1 <= dragExponentOf parked.
Proof. exact (drag_pow_in_domain parked unit_parked unit_FORWARD). Defined.

Lemma isZero_speed_parked : isZero (speedOf parked) = true.
Proof.
  rewrite (speedOf_rest parked eq_refl). apply isZero_0, sample_epsilon.
Qed.

Lemma static_friction_holds_witness :
  Vector3.x (velocity (step 1 parked))
  = snap (applyEpsilon parked) (Vector3.x (velocity parked))
  /\ Vector3.z (velocity (step 1 parked))
     = snap (applyEpsilon parked) (Vector3.z (velocity parked)).
Proof.
  apply (static_friction_holds 1 parked eq_refl isZero_speed_parked).
  rewrite forces_powered_rest by (reflexivity || apply sample_epsilon).
  apply restWeight_static. unfold parked. apply static_level.
Defined.

Lemma zero_tick_witness : obj (step 0 parked) = obj parked.
Proof.
  apply (zero_tick parked).
  - rewrite altitude_parked. apply Rle_refl.
  - exact inside_0.
  - exact inside_0.
Defined.

(** The same place and velocity, another stall value, pitch input and
    tick length. *)
Lemma stall_memoryless_witness :
  getStallStatus (step 1 parked)
  = getStallStatus
      (step 2 (newModel (Object3D.mk Quaternion.identity (Vector3.mk 0 2 0)) true 0.5 1)).
Proof.
  apply (stall_memoryless 1 2 parked
           (newModel (Object3D.mk Quaternion.identity (Vector3.mk 0 2 0)) true 0.5 1)
           eq_refl eq_refl).
  - rewrite advance_parked. apply Rle_refl.
  - assert (H2 : 0 <= 2) by lra.
    destruct (advance_rest_landed 2
                (newModel (Object3D.mk Quaternion.identity (Vector3.mk 0 2 0)) true 0.5 1)
                sample_epsilon H2 eq_refl eq_refl eq_refl (static_level _ _ _ _))
      as (_ & Hp & _).
    unfold altitude. rewrite Hp. sample_simpl. lra.
Defined.

(** ** The taxiing sample *)

Lemma speedOf_taxiing : speedOf taxiing = 10.
Proof.
  unfold speedOf, Vector3.length, Vector3.lengthSq, taxiing.
  cbn [velocity Vector3.x Vector3.y Vector3.z].
  replace (0 * 0 + 0 * 0 + 10 * 10) with (10 * 10) by lra.
  apply sqrt_square. lra.
Qed.

Lemma isZero_speed_taxiing : isZero (speedOf taxiing) = false.
Proof.
  rewrite speedOf_taxiing. unfold isZero. apply lt_false.
  rewrite Rabs_large by lra. sample_simpl. lra.
Qed.

Lemma unit_taxiing : orientationNormSq taxiing = 1.
Proof.
  unfold orientationNormSq, Quaternion.dot, taxiing. sample_simpl. lra.
Qed.

Lemma kinetic_friction_opposes_witness :
  Vector3.dot (friction (step 1 taxiing)) (velocity taxiing) <= 0.
Proof. exact (kinetic_friction_opposes 1 taxiing eq_refl isZero_speed_taxiing). Defined.

Lemma ground_speed_kept_witness :
  speedOf (powered 1 taxiing) = speedOf taxiing
  /\ (isZero (speedOf taxiing) = false ->
      velocity (powered 1 taxiing)
      = Vector3.multiplyScalar (forwardOf taxiing) (speedOf taxiing)).
Proof. exact (ground_speed_kept 1 taxiing eq_refl unit_taxiing unit_FORWARD). Defined.

(** ** The rocket sample again *)

Lemma thrust_never_brakes_witness :
  0 <= Vector3.dot (thrust (step 1 rocket)) (forwardOf rocket)
  /\ (throttle rocket = 0 -> thrust (step 1 rocket) = ZERO).
Proof.
  apply (thrust_never_brakes 1 rocket).
  change (throttle rocket) with (216 / 245). lra.
Defined.

(** ** The hovering sample again *)

Lemma friction_horizontal_witness :
  Vector3.y (friction (step 1 hovering)) = 0
  /\ (landed hovering = false -> friction (step 1 hovering) = ZERO).
Proof. exact (friction_horizontal 1 hovering). Defined.

(** ** The level stall: the rotation axis of line 94 vanishes *)

Lemma velocity_advance_stalledLevel :
  velocity (advance 1 stalledLevel) = Vector3.mk 0 (-9.8) 0.
Proof.
  rewrite advance_eq, velocity_apply, velocity_timestep.
  unfold forced.
  destruct (frictionForce_frame (speedOf (basis stalledLevel)) (powered 1 stalledLevel))
    as (Fl & Fv & Ff & _ & Ft).
  rewrite Fl, Fv, Ff, landed_powered.
  rewrite frictionForce_airborne by (rewrite landed_powered; reflexivity).
  rewrite velocity_powered_rest by (reflexivity || apply sample_epsilon).
  rewrite forces_powered_rest by (reflexivity || apply sample_epsilon).
  change (landed stalledLevel) with false. cbn [andb].
  unfold stalledLevel. rewrite restWeight_level. fold stalledLevel.
  unfold applyEpsilon. rewrite throttle_timestep, Ft, throttle_powered.
  change (throttle stalledLevel) with 0.
  assert (E : (0 >? 0) = false) by (apply gt_false; lra). rewrite E.
  unfold roundToZero, roundToZero_with, DRY_MASS, GRAVITY. vec_simpl.
  cbn [roundToZero_epsilon sampleDefs].
  replace ((0 + 0) * (1 / 20000)) with 0 by lra. rewrite snap_0.
  replace ((- (20000 * 9.8) + 0) * (1 / 20000)) with (-9.8) by lra.
  assert (Habs : Rabs (-9.8) = 9.8)
    by (unfold Rabs; destruct (Rcase_abs (-9.8)); lra).
  rewrite (snap_large 0.00001 (-9.8)) by (rewrite Habs; lra).
  replace (0 + 0 * 1) with 0 by lra. rewrite snap_0.
  replace (0 + -9.8 * 1) with (-9.8) by lra.
  rewrite (snap_large 0.1 (-9.8)) by (rewrite Habs; lra).
  reflexivity.
Qed.

Lemma altitude_advance_stalledLevel :
  PLANE_DISTANCE_TO_GROUND <= altitude (advance 1 stalledLevel).
Proof.
  rewrite altitude_advance, velocity_advance_stalledLevel.
  unfold stalledLevel. sample_simpl. lra.
Qed.

Lemma groundRightOf_stalledLevel : groundRightOf stalledLevel = ZERO.
Proof.
  unfold groundRightOf, stalledLevel. rewrite forwardOf_level.
  apply vec_ext; vec_simpl; ring.
Qed.

Lemma degenerate_pointDown_shrinks_witness :
  orientationNormSq (step 1 stalledLevel)
  = cos (STALL_RATE * 1 / 2) * cos (STALL_RATE * 1 / 2) * orientationNormSq stalledLevel.
Proof.
  apply (degenerate_pointDown_shrinks 1 stalledLevel altitude_advance_stalledLevel
           eq_refl).
  - change (stall stalledLevel) with 0. apply Rle_refl.
  - unfold stalledLevel. rewrite forwardOf_level. cbn [Vector3.y]. lra.
  - exact groundRightOf_stalledLevel.
Defined.
